(** * The athlete-events ETL pipeline: extract, transform, load

    A shallow embedding of the three stage functions of the notebook
    (README.md and Airflow_project.ipynb hold the same code):
    [extract_data] (README.md, lines 18-23), [transform_data] (lines
    32-43), [load_data] (lines 53-83), and of the task chain that
    schedules them (lines 93-126).  Every stage is a short sequence of
    calls to the table library (pandas) and to the database driver
    (sqlite3); each call is embedded as a function on an explicit model of
    its operand: a table of cells, a comma-separated file, a database of
    named tables.

    The file has three parts: the program, the vocabulary of the
    properties, and the properties with their proofs. *)

From Stdlib Require Import ZArith Ascii String DecimalString DecimalPos DecimalZ.
From stdpp Require Import gmap strings list sorting.

Local Open Scope string_scope.

(** ** Errors

    A stage signals failure by raising; nothing in the notebook catches. *)

Inductive PyError :=
  | FileNotFoundError (path : string)
  | ParserError (path : string)
  | EmptyDataError
  | KeyError (name : string)
  | NameError (name : string)
  | OperationalError (what : string).

Inductive Exc (A : Type) :=
  | Ok (a : A)
  | Raise (e : PyError).
Arguments Ok {A} a.
Arguments Raise {A} e.

#[export] Instance Exc_ret : MRet Exc := fun A a => Ok a.
#[export] Instance Exc_bind : MBind Exc := fun A B f m =>
  match m with
  | Ok a => f a
  | Raise e => Raise e
  end.

(** ** Tables

    A cell of a table is missing ([NaN]), a number or a text.  The fields
    of the data model are integers and strings, so a number is an integer:
    [Int z] is the numeric value [z], whether the library keeps the column
    as integers or as floats.  A float holds an integer exactly up to
    2^53 in magnitude; beyond that the value kept by the library is the
    nearest float, which the cells do not follow. *)

Inductive Cell :=
  | NaN
  | Int (z : Z)
  | Txt (s : string).

#[export] Instance Cell_eq_dec : EqDecision Cell.
Proof. solve_decision. Defined.

Definition notna (c : Cell) : bool :=
  match c with
  | NaN => false
  | _ => true
  end.

(** A table has its column labels, its rows, and the labels of the
    columns that the library keeps as floats: a column of numbers is kept
    as integers until a missing cell or a number written with a fraction
    makes it a column of floats, and it stays one when the missing cells
    are dropped.  The type of a column shows where the table is written:
    2012 as a float is written [2012.0], and stored as a REAL. *)
Record DataFrame := typedFrame {
  columns : list string;
  rows : list (list Cell);
  floats : list string
}.

(** A table with no column of floats. *)
Definition mkDataFrame (cols : list string) (rws : list (list Cell)) : DataFrame :=
  typedFrame cols rws [].

(** Position of a column label, first occurrence. *)
Fixpoint index_of (name : string) (cols : list string) : option nat :=
  match cols with
  | [] => None
  | c :: cols' =>
      if String.eqb c name then Some 0%nat
      else S <$> index_of name cols'
  end.

(** Positions of the labels [names]; a label that is not a column raises
    [KeyError]. *)
Fixpoint locate (names cols : list string) : Exc (list nat) :=
  match names with
  | [] => Ok []
  | n :: names' =>
      match index_of n cols with
      | None => Raise (KeyError n)
      | Some i => ixs ← locate names' cols; Ok (i :: ixs)
      end
  end.

Definition cell_at (r : list Cell) (i : nat) : Cell := nth i r NaN.

Definition take_cells (ixs : list nat) (r : list Cell) : list Cell :=
  map (cell_at r) ixs.

(** [df[names]]: the table restricted to the listed columns. *)
Definition getitem (names : list string) (df : DataFrame) : Exc DataFrame :=
  ixs ← locate names (columns df);
  Ok (mkDataFrame names (map (take_cells ixs) (rows df))).

Definition all_present (cs : list Cell) : bool := forallb notna cs.

(** [df.dropna(subset=names)]: keep the rows with no missing cell in the
    listed columns. *)
Definition dropna (subset : list string) (df : DataFrame) : Exc DataFrame :=
  ixs ← locate subset (columns df);
  Ok (mkDataFrame (columns df)
        (List.filter (fun r => all_present (take_cells ixs r)) (rows df))).

(** *** Grouping

    [df.groupby(keys)] with the library defaults: rows with a missing key
    cell belong to no group, and the groups come in ascending key order. *)

Definition cell_leb (a b : Cell) : bool :=
  match a, b with
  | NaN, _ => true
  | Int _, NaN => false
  | Int x, Int y => (x <=? y)%Z
  | Int _, Txt _ => true
  | Txt s, Txt t => String.leb s t
  | Txt _, _ => false
  end.

(** Lexicographic order on key tuples. *)
Fixpoint key_leb (k1 k2 : list Cell) : bool :=
  match k1, k2 with
  | [], _ => true
  | _ :: _, [] => false
  | a :: k1', b :: k2' =>
      if decide (a = b) then key_leb k1' k2' else cell_leb a b
  end.

Definition key_le (k1 k2 : list Cell) : Prop := key_leb k1 k2 = true.

#[export] Instance key_le_dec k1 k2 : Decision (key_le k1 k2).
Proof. unfold key_le. apply _. Defined.

Record GroupBy := mkGroupBy {
  frame_columns : list string;
  by_labels : list string;
  by_index : list nat;
  grouped : list (list Cell)
}.

Definition groupby (keys : list string) (df : DataFrame) : Exc GroupBy :=
  ixs ← locate keys (columns df);
  Ok (mkGroupBy (columns df) keys ixs
        (List.filter (fun r => all_present (take_cells ixs r)) (rows df))).

Definition group_keys (g : GroupBy) : list (list Cell) :=
  merge_sort key_le (remove_dups (map (take_cells (by_index g)) (grouped g))).

Definition members (g : GroupBy) (k : list Cell) : list (list Cell) :=
  List.filter (fun r => bool_decide (take_cells (by_index g) r = k)) (grouped g).

(** A grouped result before [reset_index]: one value per group key. *)
Record Series := mkSeries {
  index_labels : list string;
  entries : list (list Cell * Cell)
}.

Definition count_cell (n : nat) : Cell := Int (Z.of_nat n).

(** [g.size()]: the number of rows of each group. *)
Definition size (g : GroupBy) : Series :=
  mkSeries (by_labels g)
    (map (fun k => (k, count_cell (length (members g k)))) (group_keys g)).

(** [g[name]]: one column of the grouped table. *)
Record SeriesGroupBy := mkSeriesGroupBy {
  of_groups : GroupBy;
  selected : nat
}.

Definition getitem_grouped (name : string) (g : GroupBy) : Exc SeriesGroupBy :=
  match index_of name (frame_columns g) with
  | None => Raise (KeyError name)
  | Some i => Ok (mkSeriesGroupBy g i)
  end.

Definition values_in (sg : SeriesGroupBy) (k : list Cell) : list Cell :=
  map (fun r => cell_at r (selected sg)) (members (of_groups sg) k).

(** [g[name].nunique()]: the number of distinct non-missing values of the
    selected column in each group. *)
Definition nunique (sg : SeriesGroupBy) : Series :=
  mkSeries (by_labels (of_groups sg))
    (map (fun k =>
            (k, count_cell (length (remove_dups (List.filter notna (values_in sg k))))))
         (group_keys (of_groups sg))).

(** [s.reset_index(name=...)]: the keys become columns again and the
    values form a last column called [name]. *)
Definition reset_index (name : string) (s : Series) : DataFrame :=
  mkDataFrame (index_labels s ++ [name])%list
    (map (fun e => (fst e ++ [snd e])%list) (entries s)).

(** ** The Transformer on tables

    The body of [transform_data] between its read and its two writes
    (README.md, lines 36-40).  The operations above are given on labels
    and rows; the types of the columns of their results are attached
    below, where the results are written. *)
Definition transform_frames (df : DataFrame) : Exc (DataFrame * DataFrame) :=
  df4 ← getitem ["year"; "season"; "noc"; "medal"] df;
  df_filtered ← dropna ["medal"] df4;
  g3 ← groupby ["year"; "season"; "noc"] df_filtered;
  let medal_counts := reset_index "Medal_Count" (size g3) in
  g2 ← groupby ["year"; "season"] df_filtered;
  g2_noc ← getitem_grouped "noc" g2;
  let country_counts := reset_index "Countries_with_Medals" (nunique g2_noc) in
  Ok (medal_counts, country_counts).

(** The types of an aggregate table made from [df]: selecting columns,
    dropping rows and grouping keep the type of a column, so a key column
    is a column of floats exactly when it is one in [df]; the column of
    counts is a column of integers. *)
Definition keys_typed_as (df : DataFrame) (keys : list string) (out : DataFrame)
    : DataFrame :=
  typedFrame (columns out) (rows out)
    (List.filter (fun name => bool_decide (name ∈ floats df)) keys).

(** The cells of the column at position [j]. *)
Definition column_cells (df : DataFrame) (j : nat) : list Cell :=
  map (fun r => cell_at r j) (rows df).


(** ** Comma-separated files

    A written table is a header line and one line per row, each already
    split into its fields: the quoting of the writer and of the reader
    protects commas, quotes and line breaks inside a field, so that the
    fields are what the two agree on. *)

Record CsvFile := mkCsv {
  header : list string;
  lines : list (list string)
}.

(** Decimal text of an integer. *)
Definition string_of_Z (z : Z) : string := NilZero.string_of_int (Z.to_int z).

(** A missing cell is written as the empty field, a number in decimal, a
    text as it is. *)
Definition render_cell (c : Cell) : string :=
  match c with
  | NaN => ""
  | Int z => string_of_Z z
  | Txt s => s
  end.

(** In a column of floats a number is written with its fraction. *)
Definition render_as (float : bool) (c : Cell) : string :=
  match c with
  | Int z => if float then string_of_Z z ++ ".0" else string_of_Z z
  | _ => render_cell c
  end.

(** Whether the column at position [j] is a column of floats. *)
Definition is_float (df : DataFrame) (j : nat) : bool :=
  match columns df !! j with
  | Some name => bool_decide (name ∈ floats df)
  | None => false
  end.

(** [df.to_csv(path, index=False)], the text it writes. *)
Definition to_csv (df : DataFrame) : CsvFile :=
  mkCsv (columns df)
    (map (imap (fun j c => render_as (is_float df j) c)) (rows df)).

(** The fields that [read_csv] takes for a missing value, by default. *)
Definition na_values : list string :=
  [ ""; "#N/A"; "#N/A N/A"; "#NA"; "-1.#IND"; "-1.#QNAN"; "-NaN"; "-nan";
    "1.#IND"; "1.#QNAN"; "<NA>"; "N/A"; "NA"; "NULL"; "NaN"; "None";
    "n/a"; "nan"; "null" ].

Definition is_na (t : string) : bool := bool_decide (t ∈ na_values).

(** A field that spells an integer: digits after an optional sign. *)
Definition as_int (t : string) : option Z :=
  match t with
  | String a t' =>
      if Ascii.eqb a "+"%char then Z.of_uint <$> NilZero.uint_of_string t'
      else Z.of_int <$> NilZero.int_of_string t
  | EmptyString => None
  end.

(** The text before the first point of a field, and the text after it. *)
Fixpoint split_point (t : string) : string * option string :=
  match t with
  | EmptyString => (EmptyString, None)
  | String a t' =>
      if Ascii.eqb a "."%char then (EmptyString, Some t')
      else let '(whole, fraction) := split_point t' in (String a whole, fraction)
  end.

Fixpoint zeros (t : string) : bool :=
  match t with
  | EmptyString => true
  | String a t' => Ascii.eqb a "0"%char && zeros t'
  end.

(** A field that spells a number of the cells: an integer, or an integer
    followed by a point and zeros, as the numbers of a column of floats
    are written. *)
Definition as_number (t : string) : option Z :=
  match split_point t with
  | (whole, None) => as_int whole
  | (whole, Some fraction) => if zeros fraction then as_int whole else None
  end.

Definition has_point (t : string) : bool :=
  bool_decide (is_Some (snd (split_point t))).

(** A column is read as numbers when each of its fields is missing or
    spells a number, and as text otherwise; a column of numbers is one of
    floats when a field is missing or has a point.  Numbers are integers
    here, as the cells are: a column of fields that spell other floats or
    truth values, which the library converts as well, is read here as
    text. *)
Definition numeric_column (toks : list string) : bool :=
  forallb (fun t => is_na t || bool_decide (is_Some (as_number t))) toks.

Definition float_column (toks : list string) : bool :=
  numeric_column toks && existsb (fun t => is_na t || has_point t) toks.

Definition parse_field (numeric : bool) (t : string) : Cell :=
  if is_na t then NaN
  else if numeric then from_option Int NaN (as_number t)
  else Txt t.

Definition column_fields (j : nat) (ls : list (list string)) : list string :=
  map (fun l => nth j l "") ls.

(** A column without a label is given one from its position. *)
Definition column_label (j : nat) (name : string) : string :=
  if String.eqb name "" then "Unnamed: " ++ NilZero.string_of_uint (Nat.to_uint j)
  else name.

(** The labels, among [labels], of the columns that [float] selects by
    position. *)
Definition labels_where (float : nat → bool) (labels : list string) : list string :=
  map snd (List.filter (fun p => float (fst p)) (imap pair labels)).

(** [pd.read_csv(path)] on the text of the file, with the defaults of the
    library: the first line is the header, the type of a column is
    inferred from its fields, and the fields of [na_values] are missing
    cells.  A file without columns is refused. *)
Definition read_csv (f : CsvFile) : Exc DataFrame :=
  match header f with
  | [] => Raise EmptyDataError
  | _ =>
      let width := length (header f) in
      let labels := imap column_label (header f) in
      Ok (typedFrame labels
            (map (fun l =>
                    map (fun j =>
                           parse_field (numeric_column (column_fields j (lines f)))
                                       (nth j l ""))
                        (seq 0 width))
                 (lines f))
            (labels_where (fun j => float_column (column_fields j (lines f))) labels))
  end.

(** ** Line-delimited records

    One object per line; a field holds null, an integer or a string. *)

Definition JsonObject : Type := list (string * Cell).

(** Value of a key in an object; a repeated key keeps its last value. *)
Fixpoint json_get (key : string) (o : JsonObject) : option Cell :=
  match o with
  | [] => None
  | (k, v) :: o' =>
      match json_get key o' with
      | Some v' => Some v'
      | None => if String.eqb k key then Some v else None
      end
  end.

(** The distinct elements of a list, in order of first appearance. *)
Fixpoint first_seen (l : list string) : list string :=
  match l with
  | [] => []
  | x :: l' => x :: List.filter (fun y => negb (String.eqb y x)) (first_seen l')
  end.

Definition json_columns (objs : list JsonObject) : list string :=
  first_seen (concat (map (map fst) objs)).

(** The records as a table, before any conversion: one row per record,
    one column per key, a missing cell where a record has null or lacks
    the key. *)
Definition json_table (objs : list JsonObject) : DataFrame :=
  let cols := json_columns objs in
  mkDataFrame cols
    (map (fun o => map (fun c => default NaN (json_get c o)) cols) objs).

Definition lower_ascii (a : ascii) : ascii :=
  let n := nat_of_ascii a in
  if ((65 <=? n) && (n <=? 90))%nat then ascii_of_nat (n + 32) else a.

Fixpoint lower (s : string) : string :=
  match s with
  | EmptyString => EmptyString
  | String a s' => String (lower_ascii a) (lower s')
  end.

(** The number that a text spells for the conversion to float, if it
    spells one: a missing value for not-a-number in any case of letters
    and with an optional sign, an integer for a spelling of it. *)
Definition py_float (s : string) : option Cell :=
  let unsigned :=
    match s with
    | String a s' =>
        if Ascii.eqb a "+"%char || Ascii.eqb a "-"%char then s' else s
    | EmptyString => s
    end in
  if String.eqb (lower unsigned) "nan" then Some NaN
  else Int <$> as_number s.

Definition spells_number (c : Cell) : bool :=
  match c with
  | Txt s => bool_decide (is_Some (py_float s))
  | _ => true
  end.

Definition to_number (c : Cell) : Cell :=
  match c with
  | Txt s => default NaN (py_float s)
  | _ => c
  end.

(** [pd.read_json(path, lines=True)] on the records of the file: the
    table of the records with its columns converted.  When every text
    of a column spells a number, the column becomes one of numbers; a
    column of numbers with a missing cell, or of missing cells alone, is a
    column of floats.  Numbers are integers here: texts that spell other
    floats are left as texts, and an integer that does not fit 64 bits,
    which the library refuses, is taken as the others.  The conversion
    to dates that the library tries under labels such as [date] or
    [created_at] is not part of this model. *)
Definition read_json (objs : list JsonObject) : DataFrame :=
  let t := json_table objs in
  let numbers j := forallb spells_number (column_cells t j) in
  typedFrame (columns t)
    (map (imap (fun j c => if numbers j then to_number c else c)) (rows t))
    (labels_where
       (fun j => numbers j
                 && existsb (fun c => negb (notna (to_number c))) (column_cells t j))
       (columns t)).


(** ** The world of a run: files and the relational store *)

Inductive FileContent :=
  | JsonLines (objs : list JsonObject)
  | CsvText (f : CsvFile).

(** A table of the store: declared columns (name, type), declared primary
    key, rows. *)
Record SqlTable := mkTable {
  tbl_columns : list (string * string);
  tbl_primary_key : list string;
  tbl_rows : list (list Cell)
}.

(** The world: the files, the tables of the store, and the number of
    connections to the store that the running process holds open. *)
Record World := mkWorld {
  files : gmap string FileContent;
  store : gmap string SqlTable;
  open_connections : nat
}.

Definition set_files (fs : gmap string FileContent) (w : World) : World :=
  mkWorld fs (store w) (open_connections w).

Definition set_store (db : gmap string SqlTable) (w : World) : World :=
  mkWorld (files w) db (open_connections w).

(** A computation on the world that returns or raises; what it did before
    raising stays done. *)
Definition Run (A : Type) : Type := World → Exc A * World.

#[export] Instance Run_ret : MRet Run := fun A a w => (Ok a, w).
#[export] Instance Run_bind : MBind Run := fun A B k m w =>
  match m w with
  | (Ok a, w') => k a w'
  | (Raise e, w') => (Raise e, w')
  end.

Definition raise {A} (e : PyError) : Run A := fun w => (Raise e, w).

Definition lift {A} (x : Exc A) : Run A := fun w => (x, w).

Definition gets {A} (f : World → A) : Run A := fun w => (Ok (f w), w).

Definition modify (f : World → World) : Run unit := fun w => (Ok tt, f w).

(** *** File access *)

Definition read_json_file (path : string) : Run DataFrame := fun w =>
  match files w !! path with
  | None => (Raise (FileNotFoundError path), w)
  | Some (JsonLines objs) => (Ok (read_json objs), w)
  | Some (CsvText _) => (Raise (ParserError path), w)
  end.

Definition read_csv_file (path : string) : Run DataFrame := fun w =>
  match files w !! path with
  | None => (Raise (FileNotFoundError path), w)
  | Some (CsvText f) => (read_csv f, w)
  | Some (JsonLines _) => (Raise (ParserError path), w)
  end.

(** [df.to_csv(path, index=False)]: the file at [path] is replaced by the
    text of the table.  The file system is taken to accept every write; a
    write that fails (a full disk, a path that cannot be written) is
    outside this model, and so is what a stage leaves behind when one of
    its writes fails. *)
Definition to_csv_file (df : DataFrame) (path : string) : Run unit :=
  modify (fun w => set_files (<[path := CsvText (to_csv df)]> (files w)) w).

(** *** The store through a connection

    Calls on the store may raise for reasons of their own (the file cannot
    be opened, the database is locked, the disk is full).  The environment
    of a run says which calls do. *)

Inductive StoreCall :=
  | Connect
  | Execute (table : string)
  | DropTable (table : string)
  | CreateTable (table : string)
  | InsertRows (table : string)
  | Commit
  | Close.

(** A connection holds the uncommitted state of its open transaction, if
    it has one. *)
Record Connection := mkConnection {
  pending : option (gmap string SqlTable)
}.

(** A table-creation statement, [CREATE TABLE IF NOT EXISTS]. *)
Record CreateStatement := mkCreate {
  ct_table : string;
  ct_columns : list (string * string);
  ct_primary_key : list string
}.

Definition create_if_absent (q : CreateStatement) (db : gmap string SqlTable)
    : gmap string SqlTable :=
  match db !! ct_table q with
  | Some _ => db
  | None => <[ct_table q := mkTable (ct_columns q) (ct_primary_key q) []]> db
  end.

(** Column type that [to_sql] declares for a column of the table. *)
Definition is_int_cell (c : Cell) : bool :=
  match c with Int _ => true | _ => false end.

Definition is_txt_cell (c : Cell) : bool :=
  match c with Txt _ => true | _ => false end.

Definition sql_type (cells : list Cell) : string :=
  match cells with
  | [] => "TEXT"
  | _ =>
      if forallb is_int_cell cells then "INTEGER"
      else if forallb (fun c => negb (is_txt_cell c)) cells then "REAL"
      else "TEXT"
  end.

Definition frame_schema (df : DataFrame) : list (string * string) :=
  imap (fun j name =>
          (name, if is_float df j then "REAL" else sql_type (column_cells df j)))
       (columns df).

Definition append_rows (rs : list (list Cell)) (t : SqlTable) : SqlTable :=
  mkTable (tbl_columns t) (tbl_primary_key t) (tbl_rows t ++ rs).

Section Store.
(** Which calls on the store raise. *)
Variable raises : StoreCall → bool.

Definition guard (call : StoreCall) (what : string) : Run unit :=
  if raises call then raise (OperationalError what) else mret tt.

Definition opened (w : World) : World :=
  mkWorld (files w) (store w) (S (open_connections w)).

Definition closed (w : World) : World :=
  mkWorld (files w) (store w) (pred (open_connections w)).

(** [sqlite3.connect(path)] *)
Definition connect : Run Connection :=
  guard Connect "unable to open database file";;
  modify opened;;
  mret (mkConnection None).

Definition view (c : Connection) (w : World) : gmap string SqlTable :=
  default (store w) (pending c).

(** A statement that changes the schema: outside a transaction it takes
    effect in the store at once. *)
Definition execute_ddl (call : StoreCall)
    (f : gmap string SqlTable → gmap string SqlTable) (c : Connection)
    : Run Connection :=
  guard call "statement failed";;
  match pending c with
  | Some db => mret (mkConnection (Some (f db)))
  | None => modify (fun w => set_store (f (store w)) w);; mret c
  end.

(** A statement that changes rows: it opens a transaction if none is
    open, and its effect waits there for the commit. *)
Definition execute_dml (call : StoreCall)
    (f : gmap string SqlTable → gmap string SqlTable) (c : Connection)
    : Run Connection :=
  guard call "statement failed";;
  db ← gets (view c);
  mret (mkConnection (Some (f db))).

Definition commit_transaction (c : Connection) : Run Connection :=
  db ← gets (view c);
  modify (set_store db);;
  mret (mkConnection None).

(** [connection.execute(query)] for a table-creation statement. *)
Definition execute (q : CreateStatement) (c : Connection) : Run Connection :=
  execute_ddl (Execute (ct_table q)) (create_if_absent q) c.

(** [connection.commit()] *)
Definition commit (c : Connection) : Run Connection :=
  guard Commit "commit failed";;
  commit_transaction c.

(** [connection.close()]: what was not committed is lost. *)
Definition close (c : Connection) : Run unit :=
  guard Close "close failed";;
  modify closed.

(** [df.to_sql(name, connection, if_exists='replace', index=False)]: an
    existing table of that name is dropped, a table is created from the
    columns of [df] with no key, and the rows of [df] are inserted.  The
    library commits after creating and after inserting; an insertion that
    raises leaves nothing behind, its transaction being rolled back. *)
Definition to_sql (df : DataFrame) (name : string) (c : Connection)
    : Run Connection :=
  db ← gets (view c);
  c ← (if bool_decide (is_Some (db !! name))
       then execute_ddl (DropTable name) (delete name) c
       else mret c);
  c ← execute_ddl (CreateTable name)
        (<[name := mkTable (frame_schema df) [] []]>) c;
  c ← commit_transaction c;
  c ← execute_dml (InsertRows name) (alter (append_rows (rows df)) name) c;
  commit_transaction c.
End Store.


(** ** The three stages *)

(** Step 1 (README.md, lines 18-23): the records of the input file go to
    a comma-separated file. *)
Definition extract_data : Run unit :=
  let file_path := "athlete_events_2006_2016.jsonl" in
  df ← read_json_file file_path;
  to_csv_file df "extracted_data.csv".

(** Step 2 (lines 32-43): the two aggregate tables are computed and
    written. *)
Definition transform_data : Run unit :=
  df ← read_csv_file "extracted_data.csv";
  '(medal_counts, country_counts) ← lift (transform_frames df);
  to_csv_file (keys_typed_as df ["year"; "season"; "noc"] medal_counts)
    "transformed_medal_counts.csv";;
  to_csv_file (keys_typed_as df ["year"; "season"] country_counts)
    "transformed_country_counts.csv".

(** The two table-creation statements written out in [load_data] (lines
    59-67 and 71-78). *)
Definition medal_counts_statement : CreateStatement :=
  mkCreate "MedalCounts"
    [("year", "INT"); ("season", "VARCHAR(20)"); ("noc", "VARCHAR(3)");
     ("Medal_Count", "INT")]
    ["year"; "season"; "noc"].

Definition country_counts_statement : CreateStatement :=
  mkCreate "CountryCounts"
    [("year", "INT"); ("season", "VARCHAR(20)"); ("Countries_with_Medals", "INT")]
    ["year"; "season"].

(** The value of a name that should hold a statement.  [load_data] binds
    its statements to local names; the notebook binds no statement at top
    level, so a name that is not a local of the function is unbound. *)
Definition lookup_name (locals : gmap string CreateStatement) (name : string)
    : Run CreateStatement :=
  match locals !! name with
  | Some q => mret q
  | None => raise (NameError name)
  end.

Section Pipeline.
Variable raises : StoreCall → bool.

(** Step 3 (lines 53-83): the two aggregate files go to the two tables of
    the store.  The second statement is bound, like the first, to the name
    [create_medal_table_query] (line 71); the name executed next is
    [create_country_table_query] (line 79). *)
Definition load_data : Run unit :=
  medal_counts ← read_csv_file "transformed_medal_counts.csv";
  country_counts ← read_csv_file "transformed_country_counts.csv";
  connection ← connect raises;
  let locals : gmap string CreateStatement :=
    {["create_medal_table_query" := medal_counts_statement]} in
  create_medal_table_query ← lookup_name locals "create_medal_table_query";
  connection ← execute raises create_medal_table_query connection;
  connection ← to_sql raises medal_counts "MedalCounts" connection;
  let locals := <["create_medal_table_query" := country_counts_statement]> locals in
  create_country_table_query ← lookup_name locals "create_country_table_query";
  connection ← execute raises create_country_table_query connection;
  connection ← to_sql raises country_counts "CountryCounts" connection;
  connection ← commit raises connection;
  close raises connection.

(** ** The task chain (lines 93-126) *)

Record PythonOperator := mkOperator {
  task_id : string;
  python_callable : Run unit
}.

Record DefaultArgs := mkDefaultArgs {
  owner : string;
  depends_on_past : bool;
  retries : nat;
  retry_delay_minutes : nat
}.

Definition default_args : DefaultArgs := mkDefaultArgs "airflow" false 1 5.

Definition extract_task : PythonOperator := mkOperator "extract_data" extract_data.
Definition transform_task : PythonOperator := mkOperator "transform_data" transform_data.
Definition load_task : PythonOperator := mkOperator "load_data" load_data.

(** The world when an attempt of a task is over: what the attempt wrote to
    the files and to the store stays, and the connections it left open are
    gone with the process that ran it. *)
Definition end_of_attempt (before after : World) : World :=
  mkWorld (files after) (store after) (open_connections before).

(** A task is tried, and tried again while it raises and retries remain. *)
Fixpoint run_task (tries_left : nat) (t : PythonOperator) : Run unit := fun w =>
  match python_callable t w with
  | (Ok r, w') => (Ok r, end_of_attempt w w')
  | (Raise e, w') =>
      match tries_left with
      | O => (Raise e, end_of_attempt w w')
      | S n => run_task n t (end_of_attempt w w')
      end
  end.

(** [extract_task >> transform_task >> load_task]: each task runs after
    the one before it has succeeded. *)
Fixpoint run_chain (tasks : list PythonOperator) : Run unit :=
  match tasks with
  | [] => mret tt
  | t :: tasks' => run_task (retries default_args) t;; run_chain tasks'
  end.

Definition etl_pipeline : Run unit :=
  run_chain [extract_task; transform_task; load_task].
End Pipeline.

(** ** Reading a table by field name

    The vocabulary in which the properties of the Transformer are stated:
    the cell of a record under a column label, and the records selected by
    a predicate. *)

Definition four : list string := ["year"; "season"; "noc"; "medal"].

Definition has_columns (names : list string) (df : DataFrame) : Prop :=
  ∀ n, n ∈ names → n ∈ columns df.

Definition field (df : DataFrame) (name : string) (r : list Cell) : Cell :=
  match index_of name (columns df) with
  | Some i => cell_at r i
  | None => NaN
  end.

Definition record4 (df : DataFrame) (r : list Cell) : list Cell :=
  [field df "year" r; field df "season" r; field df "noc" r; field df "medal" r].

Definition medal_present (df : DataFrame) (r : list Cell) : bool :=
  notna (field df "medal" r).

Definition key3 (df : DataFrame) (r : list Cell) : list Cell :=
  [field df "year" r; field df "season" r; field df "noc" r].

Definition key2 (df : DataFrame) (r : list Cell) : list Cell :=
  [field df "year" r; field df "season" r].

(** The medal-present records of [df] whose key under [key] is [k]. *)
Definition medal_records (df : DataFrame) (key : list Cell → list Cell)
    (k : list Cell) : list (list Cell) :=
  List.filter (fun r => medal_present df r && bool_decide (key r = k)) (rows df).

(** [n] is the number of distinct values satisfying [P]. *)
Definition n_distinct (P : Cell → Prop) (n : nat) : Prop :=
  ∃ l : list Cell, NoDup l ∧ (∀ x, x ∈ l ↔ P x) ∧ length l = n.


(** The intermediate values of [transform_frames] on a table that has the
    four columns. *)
Definition df_filtered_rows (df : DataFrame) : list (list Cell) :=
  List.filter (fun r => all_present (take_cells [3%nat] r)) (map (record4 df) (rows df)).

Definition groups3 (df : DataFrame) : GroupBy :=
  mkGroupBy four ["year"; "season"; "noc"] [0; 1; 2]%nat
    (List.filter (fun r => all_present (take_cells [0; 1; 2]%nat r)) (df_filtered_rows df)).

Definition groups2 (df : DataFrame) : GroupBy :=
  mkGroupBy four ["year"; "season"] [0; 1]%nat
    (List.filter (fun r => all_present (take_cells [0; 1]%nat r)) (df_filtered_rows df)).

(** The distinct countries of a (year, season) group. *)
Definition countries_of (df : DataFrame) (k : list Cell) (n : Cell) : Prop :=
  notna n = true ∧ ∃ r, r ∈ medal_records df (key2 df) k ∧ field df "noc" r = n.

(** The scenario of the specification. *)
Definition scenario_table : DataFrame :=
  mkDataFrame ["year"; "season"; "noc"; "medal"]
    [ [Int 2012; Txt "Summer"; Txt "USA"; Txt "Gold"];
      [Int 2012; Txt "Summer"; Txt "USA"; Txt "Silver"];
      [Int 2012; Txt "Summer"; Txt "GBR"; NaN] ].


(** ** Vocabulary for the Loader and the task chain *)

(** The environment in which no call on the store raises. *)
Definition no_faults : StoreCall → bool := fun _ => false.

(** The rows held by a table of the store, if the table exists. *)
Definition contents (w : World) (table : string) : option (list (list Cell)) :=
  tbl_rows <$> store w !! table.

(** The table that [to_sql] leaves for a frame. *)
Definition written_table (df : DataFrame) : SqlTable :=
  mkTable (frame_schema df) [] (rows df).

(** The store as [load_data] leaves it, given the MedalCount frame it has
    read: the calls up to the first one that raises have taken effect. *)
Definition loaded_store (raises : StoreCall → bool) (medal_counts : DataFrame)
    (db : gmap string SqlTable) : gmap string SqlTable :=
  if raises Connect then db
  else if raises (Execute "MedalCounts") then db
  else if raises (DropTable "MedalCounts") then create_if_absent medal_counts_statement db
  else if raises (CreateTable "MedalCounts") then delete "MedalCounts" db
  else if raises (InsertRows "MedalCounts")
       then <["MedalCounts" := mkTable (frame_schema medal_counts) [] []]> db
  else <["MedalCounts" := written_table medal_counts]> db.

(** The error with which [load_data] stops once it has read its files. *)
Definition load_error (raises : StoreCall → bool) : PyError :=
  if raises Connect then OperationalError "unable to open database file"
  else if raises (Execute "MedalCounts") || raises (DropTable "MedalCounts")
          || raises (CreateTable "MedalCounts") || raises (InsertRows "MedalCounts")
       then OperationalError "statement failed"
  else NameError "create_country_table_query".

(** A world holding the two aggregate files of the scenario, with a store
    loaded by an earlier day. *)
Definition scenario_medal_counts : DataFrame :=
  mkDataFrame ["year"; "season"; "noc"; "Medal_Count"]
    [ [Int 2012; Txt "Summer"; Txt "USA"; Int 2] ].

Definition scenario_country_counts : DataFrame :=
  mkDataFrame ["year"; "season"; "Countries_with_Medals"]
    [ [Int 2012; Txt "Summer"; Int 1] ].

Definition earlier_medal_counts : SqlTable :=
  mkTable (ct_columns medal_counts_statement) (ct_primary_key medal_counts_statement)
    [ [Int 2008; Txt "Summer"; Txt "USA"; Int 1] ].

Definition earlier_country_counts : SqlTable :=
  mkTable (ct_columns country_counts_statement) (ct_primary_key country_counts_statement)
    [ [Int 2008; Txt "Summer"; Int 1] ].

Definition aggregate_files : gmap string FileContent :=
  <["transformed_medal_counts.csv" := CsvText (to_csv scenario_medal_counts)]>
  (<["transformed_country_counts.csv" := CsvText (to_csv scenario_country_counts)]> ∅).

Definition fresh_world : World := mkWorld aggregate_files ∅ 0.

Definition loaded_world : World :=
  mkWorld aggregate_files
    (<["MedalCounts" := earlier_medal_counts]>
     (<["CountryCounts" := earlier_country_counts]> ∅)) 0.


(** The Loader's failure would be atomic if every run of it that raises
    left the rows of both tables as they were. *)
Definition load_failure_atomic : Prop :=
  ∀ (raises : StoreCall → bool) (w w' : World) (e : PyError),
    load_data raises w = (Raise e, w') →
    contents w' "MedalCounts" = contents w "MedalCounts" ∧
    contents w' "CountryCounts" = contents w "CountryCounts".

(** The Loader would release its connection on every path if no run of it
    left one more connection open than it found. *)
Definition connection_always_closed : Prop :=
  ∀ (raises : StoreCall → bool) (w : World),
    open_connections (snd (load_data raises w)) = open_connections w.

(** The Transformer would count every medal-present record if each of
    them had, in MedalCount, the row of its (year, season, noc) with the
    number of medal-present records of that key. *)
Definition every_medal_record_counted : Prop :=
  ∀ (df medal_counts country_counts : DataFrame) (r : list Cell),
    has_columns four df →
    transform_frames df = Ok (medal_counts, country_counts) →
    r ∈ rows df →
    medal_present df r = true →
    (key3 df r ++ [count_cell (length (medal_records df (key3 df) (key3 df r)))])%list
      ∈ rows medal_counts.

(** ** Vocabulary for the Extractor *)

(** A character that occurs in the spelling of a number: a digit, a sign,
    the point, the mark of an exponent, the underscore between digits, a
    blank or control character, or a character outside ASCII. *)
Definition number_char (a : ascii) : bool :=
  let n := nat_of_ascii a in
  ((n <=? 32) || (48 <=? n) && (n <=? 57) || (128 <=? n))%nat
  || bool_decide (n ∈ [43; 45; 46; 69; 95; 101]%nat).

(** What is left of a text without the characters of numbers. *)
Fixpoint letters_of (s : string) : string :=
  match s with
  | EmptyString => EmptyString
  | String a s' => if number_char a then letters_of s' else String a (letters_of s')
  end.

(** A text that may spell a number for one of the readers: apart from the
    characters of numbers it holds nothing, or one of the words for
    not-a-number and infinity, in any case of letters. *)
Definition number_like (s : string) : bool :=
  bool_decide (lower (letters_of s) ∈ [""; "nan"; "inf"; "infinity"]).

(** A word for a truth value, in any case of letters. *)
Definition truth_like (s : string) : bool :=
  bool_decide (lower s ∈ ["true"; "false"]).

(** A text that no reader takes for anything but a text: it is not one of
    the fields taken for a missing value, it cannot spell a number, and it
    is not a word for a truth value. *)
Definition surely_text (s : string) : bool :=
  negb (is_na s) && negb (number_like s) && negb (truth_like s).

(** [suffix] ends [s]. *)
Fixpoint ends_with (suffix s : string) : bool :=
  String.eqb suffix s
  || match s with
     | EmptyString => false
     | String _ s' => ends_with suffix s'
     end.

(** A column label under which the reader of line-delimited records looks
    for dates and converts what it finds. *)
Definition date_label (name : string) : bool :=
  let l := lower name in
  ends_with "_at" l || ends_with "_time" l
  || String.eqb l "modified" || String.eqb l "date" || String.eqb l "datetime"
  || String.prefix "timestamp" l.

(** A column of numbers: it has no text. *)
Definition number_cells (cells : list Cell) : bool :=
  forallb (fun c => negb (is_txt_cell c)) cells.

(** The numbers of a column are kept, written and read exactly: they are
    integers of 64 bits, and of at most 14 digits when the column has a
    missing cell and is therefore one of floats. *)
Definition exact_cells (cells : list Cell) : bool :=
  forallb (fun c => match c with
                    | Int z =>
                        if forallb notna cells
                        then ((- 2 ^ 63 <=? z) && (z <? 2 ^ 63))%Z
                        else ((- 10 ^ 14 <? z) && (z <? 10 ^ 14))%Z
                    | _ => true
                    end) cells.

(** A column of texts: it has no number, none of its texts is a field
    taken for a missing value, and one of them at least is surely a text,
    so that no reader takes the column for one of numbers or of truth
    values. *)
Definition text_cells (cells : list Cell) : bool :=
  forallb (fun c => match c with
                    | NaN => true
                    | Int _ => false
                    | Txt s => negb (is_na s)
                    end) cells
  && existsb (fun c => match c with Txt s => surely_text s | _ => false end) cells.

(** The records of an input pass through a comma-separated file as they
    are when their table is plain: every label is a field that is read as
    it is, none marks a column of dates, and one at least is surely a
    text; every column is one of numbers that are exact or one of
    texts. *)
Definition plain_records (objs : list JsonObject) : Prop :=
  (∃ name, name ∈ json_columns objs ∧ surely_text name = true) ∧
  (∀ name, name ∈ json_columns objs → is_na name = false ∧ date_label name = false) ∧
  (∀ j, (j < length (json_columns objs))%nat →
        number_cells (column_cells (json_table objs) j)
        && exact_cells (column_cells (json_table objs) j)
        || text_cells (column_cells (json_table objs) j) = true).

(** The records of the input would pass unchanged through the artifact if
    reading the artifact gave back, for every input file, the records: one
    row for each, in order, with the values of the record. *)
Definition extraction_preserves_records : Prop :=
  ∀ (w : World) (objs : list JsonObject),
    files w !! "athlete_events_2006_2016.jsonl" = Some (JsonLines objs) →
    ∃ w' df,
      extract_data w = (Ok tt, w') ∧
      read_csv_file "extracted_data.csv" w' = (Ok df, w') ∧
      columns df = json_columns objs ∧
      rows df = rows (json_table objs).

(** An input of one record whose medal is the string NA. *)
Definition na_medal_records : list JsonObject :=
  [ [("year", Int 2012); ("season", Txt "Summer"); ("noc", Txt "USA");
     ("medal", Txt "NA")] ].

Definition na_medal_world : World :=
  mkWorld {["athlete_events_2006_2016.jsonl" := JsonLines na_medal_records]} ∅ 0.

(** The input of the scenario, as records. *)
Definition scenario_records : list JsonObject :=
  [ [("year", Int 2012); ("season", Txt "Summer"); ("noc", Txt "USA");
     ("medal", Txt "Gold")];
    [("year", Int 2012); ("season", Txt "Summer"); ("noc", Txt "USA");
     ("medal", Txt "Silver")];
    [("year", Int 2012); ("season", Txt "Summer"); ("noc", Txt "GBR");
     ("medal", NaN)] ].

Definition scenario_world : World :=
  mkWorld {["athlete_events_2006_2016.jsonl" := JsonLines scenario_records]} ∅ 0.

(** [plain_records], decided. *)
Definition plain_recordsb (objs : list JsonObject) : bool :=
  existsb surely_text (json_columns objs)
  && forallb (fun name => negb (is_na name) && negb (date_label name))
       (json_columns objs)
  && forallb (fun j => number_cells (column_cells (json_table objs) j)
                       && exact_cells (column_cells (json_table objs) j)
                       || text_cells (column_cells (json_table objs) j))
       (seq 0 (length (json_columns objs))).


(** ** Vocabulary for the task chain *)

(** What [read_csv_file] returns, as a function of what the path holds. *)
Definition read_frame (path : string) (fc : option FileContent) : Exc DataFrame :=
  match fc with
  | None => Raise (FileNotFoundError path)
  | Some (CsvText f) => read_csv f
  | Some (JsonLines _) => Raise (ParserError path)
  end.

(** The two files that [transform_data] writes, as a function of what it
    finds under the path of the extracted table. *)
Definition transform_files (fc : option FileContent) : Exc (CsvFile * CsvFile) :=
  df ← read_frame "extracted_data.csv" fc;
  '(medal_counts, country_counts) ← transform_frames df;
  Ok (to_csv (keys_typed_as df ["year"; "season"; "noc"] medal_counts),
      to_csv (keys_typed_as df ["year"; "season"] country_counts)).

(** The store after the Loader has been tried on two aggregate files. *)
Definition store_after_load (raises : StoreCall → bool) (mc cc : CsvFile)
    (db : gmap string SqlTable) : gmap string SqlTable :=
  match read_csv mc, read_csv cc with
  | Ok medal_counts, Ok _ => loaded_store raises medal_counts db
  | _, _ => db
  end.

(** The store after one run of the chain, as a function of what the path
    of the input holds and of the store before. *)
Definition pipeline_store (raises : StoreCall → bool) (input : option FileContent)
    (db : gmap string SqlTable) : gmap string SqlTable :=
  match input with
  | Some (JsonLines objs) =>
      match transform_files (Some (CsvText (to_csv (read_json objs)))) with
      | Ok (mc, cc) => store_after_load raises mc cc db
      | Raise _ => db
      end
  | _ => db
  end.


(** ** Vocabulary for further properties *)

(** The number held by a cell, zero for a cell that holds none. *)
Definition cell_value (c : Cell) : Z :=
  match c with
  | Int z => z
  | _ => 0%Z
  end.

(** The sum of the last column of a MedalCount table. *)
Definition medal_total (medal_counts : DataFrame) : Z :=
  foldr Z.add 0%Z (map (fun row => cell_value (cell_at row 3)) (rows medal_counts)).

(** The medal-present records that have a year, a season and a country. *)
Definition counted_records (df : DataFrame) : list (list Cell) :=
  List.filter (fun r => medal_present df r && all_present (key3 df r)) (rows df).

(** The two aggregate tables when there is nothing to count. *)
Definition empty_medal_counts : DataFrame :=
  mkDataFrame ["year"; "season"; "noc"; "Medal_Count"] [].

Definition empty_country_counts : DataFrame :=
  mkDataFrame ["year"; "season"; "Countries_with_Medals"] [].

(** A table of participations without a medal. *)
Definition no_medal_table : DataFrame :=
  mkDataFrame ["year"; "season"; "noc"; "medal"]
    [ [Int 2012; Txt "Summer"; Txt "GBR"; NaN];
      [Int 2014; Txt "Winter"; Txt "USA"; NaN] ].

(** A table with a medal whose record names no country. *)
Definition stateless_medal_table : DataFrame :=
  mkDataFrame ["year"; "season"; "noc"; "medal"]
    [ [Int 2012; Txt "Summer"; NaN; Txt "Gold"] ].

(** The scenario with its records in another order. *)
Definition scenario_table_reordered : DataFrame :=
  mkDataFrame ["year"; "season"; "noc"; "medal"]
    [ [Int 2012; Txt "Summer"; Txt "GBR"; NaN];
      [Int 2012; Txt "Summer"; Txt "USA"; Txt "Silver"];
      [Int 2012; Txt "Summer"; Txt "USA"; Txt "Gold"] ].

(** A world whose extracted table has no medal column. *)
Definition medal_less_world : World :=
  mkWorld
    {["extracted_data.csv" :=
        CsvText (mkCsv ["year"; "season"; "noc"] [ ["2012"; "Summer"; "USA"] ])]}
    ∅ 0.

(** The text that the Extractor writes for the records of an input. *)
Definition extracted (objs : list JsonObject) : FileContent :=
  CsvText (to_csv (read_json objs)).

(** The paths that the stages write. *)
Definition artifact_paths : list string :=
  ["extracted_data.csv"; "transformed_medal_counts.csv";
   "transformed_country_counts.csv"].

(** A world with nothing in it. *)
Definition empty_world : World := mkWorld ∅ ∅ 0.

(** A world whose input has a record without a medal field. *)
Definition medal_less_records : list JsonObject :=
  [ [("year", Int 2012); ("season", Txt "Summer"); ("noc", Txt "USA")] ].

Definition medal_less_input_world : World :=
  mkWorld {["athlete_events_2006_2016.jsonl" := JsonLines medal_less_records]}
    (<["MedalCounts" := earlier_medal_counts]> ∅) 0.

(** Every text that a record has under year, season or noc is surely a
    text. *)
Definition key_texts_sure (df : DataFrame) : Prop :=
  ∀ r name s,
    r ∈ rows df → name ∈ ["year"; "season"; "noc"] →
    field df name r = Txt s → surely_text s = true.

Definition key_texts_sureb (df : DataFrame) : bool :=
  forallb (fun r =>
             forallb (fun name =>
                        match field df name r with
                        | Txt s => surely_text s
                        | _ => true
                        end)
                     ["year"; "season"; "noc"])
          (rows df).

(** An input with a record whose year is null: the year is a column of
    floats, written with a fraction in every file on the way. *)
Definition float_year_records : list JsonObject :=
  [ [("year", Int 2012); ("season", Txt "Summer"); ("noc", Txt "USA");
     ("medal", Txt "Gold")];
    [("year", Int 2012); ("season", Txt "Summer"); ("noc", Txt "USA");
     ("medal", Txt "Silver")];
    [("year", NaN); ("season", Txt "Winter"); ("noc", Txt "GBR");
     ("medal", Txt "Gold")] ].

Definition float_year_world : World :=
  mkWorld {["athlete_events_2006_2016.jsonl" := JsonLines float_year_records]} ∅ 0.

(** The ascending order of two (year, season) keys, written out: the
    earlier year first, and for one year the season that comes first
    character by character. *)
Definition season_before (y1 : Z) (s1 : string) (y2 : Z) (s2 : string) : Prop :=
  (y1 < y2)%Z ∨ (y1 = y2 ∧ String.ltb s1 s2 = true).

(** The same for two (year, season, noc) keys, the country last. *)
Definition country_before (y1 : Z) (s1 n1 : string) (y2 : Z) (s2 n2 : string) : Prop :=
  season_before y1 s1 y2 s2 ∨ (y1 = y2 ∧ s1 = s2 ∧ String.ltb n1 n2 = true).

(** Records of two Games, in no order. *)
Definition unsorted_table : DataFrame :=
  mkDataFrame ["year"; "season"; "noc"; "medal"]
    [ [Int 2016; Txt "Summer"; Txt "USA"; Txt "Gold"];
      [Int 2014; Txt "Winter"; Txt "NOR"; Txt "Gold"];
      [Int 2016; Txt "Summer"; Txt "CHN"; Txt "Silver"];
      [Int 2014; Txt "Winter"; Txt "CAN"; Txt "Bronze"];
      [Int 2016; Txt "Summer"; Txt "USA"; Txt "Bronze"];
      [Int 2008; Txt "Summer"; Txt "USA"; Txt "Gold"] ].

(** ** Basic facts about the table operations *)

Lemma index_of_elem name cols :
  name ∈ cols → ∃ i, index_of name cols = Some i.
Proof.
  induction cols as [|c cols IH]; intros Hin.
  - by apply elem_of_nil in Hin.
  - simpl. destruct (String.eqb_spec c name) as [->|Hne]; [by eexists|].
    apply elem_of_cons in Hin as [->|Hin]; [done|].
    destruct (IH Hin) as [i ->]. by eexists.
Qed.

Lemma locate_four df :
  has_columns four df →
  ∃ i0 i1 i2 i3,
    index_of "year" (columns df) = Some i0 ∧
    index_of "season" (columns df) = Some i1 ∧
    index_of "noc" (columns df) = Some i2 ∧
    index_of "medal" (columns df) = Some i3 ∧
    locate four (columns df) = Ok [i0; i1; i2; i3].
Proof.
  intros Hc.
  destruct (index_of_elem "year" (columns df)) as [i0 H0]; [apply Hc; set_solver|].
  destruct (index_of_elem "season" (columns df)) as [i1 H1]; [apply Hc; set_solver|].
  destruct (index_of_elem "noc" (columns df)) as [i2 H2]; [apply Hc; set_solver|].
  destruct (index_of_elem "medal" (columns df)) as [i3 H3]; [apply Hc; set_solver|].
  exists i0, i1, i2, i3. repeat split; try done.
  unfold four. simpl. by rewrite H0, H1, H2, H3.
Qed.

Lemma getitem_four df :
  has_columns four df →
  getitem four df = Ok (mkDataFrame four (map (record4 df) (rows df))).
Proof.
  intros Hc. destruct (locate_four df Hc) as (i0 & i1 & i2 & i3 & H0 & H1 & H2 & H3 & Hl).
  unfold getitem. rewrite Hl. simpl. do 2 f_equal.
  apply map_ext. intros r. unfold record4, field. by rewrite H0, H1, H2, H3.
Qed.


Lemma transform_frames_unfold df :
  has_columns four df →
  transform_frames df =
  Ok (reset_index "Medal_Count" (size (groups3 df)),
      reset_index "Countries_with_Medals" (nunique (mkSeriesGroupBy (groups2 df) 2))).
Proof.
  intros Hc. pose proof (getitem_four df Hc) as Hg. unfold four in Hg.
  unfold transform_frames. rewrite Hg. reflexivity.
Qed.

Section Grouping.
Variable g : GroupBy.

Lemma elem_of_group_keys k :
    k ∈ group_keys g ↔ ∃ r, r ∈ grouped g ∧ take_cells (by_index g) r = k.
  Proof.
    unfold group_keys. rewrite merge_sort_Permutation, elem_of_remove_dups.
    rewrite list_elem_of_fmap.
    split; [intros (r & -> & Hr) | intros (r & Hr & <-)]; eauto.
  Qed.

Lemma NoDup_group_keys : NoDup (group_keys g).
  Proof.
    unfold group_keys. rewrite merge_sort_Permutation. apply NoDup_remove_dups.
  Qed.

Lemma group_key_length k :
    k ∈ group_keys g → length k = length (by_index g).
  Proof.
    rewrite elem_of_group_keys. intros (r & _ & <-).
    unfold take_cells. by rewrite length_map.
  Qed.

Lemma members_nonempty k : k ∈ group_keys g → (0 < length (members g k))%nat.
  Proof.
    rewrite elem_of_group_keys. intros (r & Hr & Hk).
    assert (r ∈ members g k) as Hm.
    { unfold members. apply list_elem_of_In, List.filter_In. split.
      - by apply list_elem_of_In.
      - by apply bool_decide_eq_true. }
    destruct (members g k); [by apply elem_of_nil in Hm | simpl; lia].
  Qed.
End Grouping.

Lemma filter_filter_andb {A} (p q : A → bool) (l : list A) :
  List.filter q (List.filter p l) = List.filter (fun x => p x && q x) l.
Proof.
  induction l as [|x l IH]; [done|]. simpl.
  destruct (p x); simpl; [destruct (q x)|]; by rewrite ?IH.
Qed.

Lemma length_filter_map {A B} (p : B → bool) (f : A → B) (l : list A) :
  length (List.filter p (map f l)) = length (List.filter (fun x => p (f x)) l).
Proof. by rewrite List.filter_map_swap, length_map. Qed.

(** ** The groups of the Transformer, read on the input table *)

Section Groups.
Variable df : DataFrame.

Lemma grouped3_spec r' :
    r' ∈ grouped (groups3 df) ↔
    ∃ r, r ∈ rows df ∧ r' = record4 df r ∧ medal_present df r = true ∧
         all_present (key3 df r) = true.
  Proof.
    unfold groups3, df_filtered_rows. simpl.
    rewrite filter_filter_andb, List.filter_map_swap, list_elem_of_fmap.
    split.
    - intros (r & -> & Hr). exists r.
      apply list_elem_of_In, List.filter_In in Hr as [Hr Hp].
      apply andb_true_iff in Hp as [Hm Hk]. repeat split; try done.
      + by apply list_elem_of_In.
      + unfold medal_present. simpl in Hm. by rewrite andb_true_r in Hm.
    - intros (r & Hr & -> & Hm & Hk). exists r. split; [done|].
      apply list_elem_of_In, List.filter_In. split; [by apply list_elem_of_In|].
      apply andb_true_iff. split; [|done].
      unfold medal_present in Hm. simpl. by rewrite andb_true_r.
  Qed.

Lemma grouped2_spec r' :
    r' ∈ grouped (groups2 df) ↔
    ∃ r, r ∈ rows df ∧ r' = record4 df r ∧ medal_present df r = true ∧
         all_present (key2 df r) = true.
  Proof.
    unfold groups2, df_filtered_rows. simpl.
    rewrite filter_filter_andb, List.filter_map_swap, list_elem_of_fmap.
    split.
    - intros (r & -> & Hr). exists r.
      apply list_elem_of_In, List.filter_In in Hr as [Hr Hp].
      apply andb_true_iff in Hp as [Hm Hk]. repeat split; try done.
      + by apply list_elem_of_In.
      + unfold medal_present. simpl in Hm. by rewrite andb_true_r in Hm.
    - intros (r & Hr & -> & Hm & Hk). exists r. split; [done|].
      apply list_elem_of_In, List.filter_In. split; [by apply list_elem_of_In|].
      apply andb_true_iff. split; [|done].
      unfold medal_present in Hm. simpl. by rewrite andb_true_r.
  Qed.

(** The size of a group is the number of medal-present records of the
    input with that key. *)
Lemma members3_length k :
    all_present k = true →
    length (members (groups3 df) k) = length (medal_records df (key3 df) k).
  Proof.
    intros Hk. unfold members, groups3, df_filtered_rows, medal_records. simpl.
    rewrite !filter_filter_andb, length_filter_map. f_equal.
    apply List.filter_ext. intros r.
    unfold medal_present, key3, all_present, take_cells, record4, cell_at. simpl.
    rewrite !andb_true_r.
    destruct (notna (field df "medal" r)); simpl; [|done].
    case_bool_decide as Heq; [|by rewrite andb_false_r].
    rewrite andb_true_r. subst k. simpl in Hk. by rewrite !andb_true_r in Hk.
  Qed.

Lemma members2_spec k r' :
    all_present k = true →
    r' ∈ members (groups2 df) k ↔
    ∃ r, r ∈ rows df ∧ r' = record4 df r ∧ medal_present df r = true ∧ key2 df r = k.
  Proof.
    intros Hk. unfold members.
    rewrite list_elem_of_In, List.filter_In, <- list_elem_of_In, grouped2_spec.
    rewrite bool_decide_eq_true. split.
    - intros [(r & Hr & -> & Hm & _) Heq]. by exists r.
    - intros (r & Hr & -> & Hm & Heq). split; [|done].
      exists r. repeat split; try done. by rewrite Heq.
  Qed.
End Groups.

Lemma n_distinct_unique P a b : n_distinct P a → n_distinct P b → a = b.
Proof.
  intros (l & Hl & Hxl & <-) (k & Hk & Hxk & <-).
  apply Permutation_length, NoDup_Permutation; try done.
  intros x. by rewrite Hxl, Hxk.
Qed.

Lemma elem_of_medal_records df key k r :
  r ∈ medal_records df key k ↔
  r ∈ rows df ∧ medal_present df r = true ∧ key r = k.
Proof.
  unfold medal_records.
  rewrite list_elem_of_In, List.filter_In, <- list_elem_of_In.
  rewrite andb_true_iff, bool_decide_eq_true. tauto.
Qed.

Section GroupKeys.
Variable df : DataFrame.

Lemma group_keys3_spec k :
    k ∈ group_keys (groups3 df) ↔
    all_present k = true ∧ ∃ r, r ∈ medal_records df (key3 df) k.
  Proof.
    rewrite elem_of_group_keys. split.
    - intros (r' & Hr' & <-). apply grouped3_spec in Hr' as (r & Hr & -> & Hm & Hk).
      split; [exact Hk|]. exists r. apply elem_of_medal_records. by repeat split.
    - intros (Hk & r & Hr). apply elem_of_medal_records in Hr as (Hr & Hm & <-).
      exists (record4 df r). split; [|done].
      apply grouped3_spec. by exists r.
  Qed.

Lemma group_keys2_spec k :
    k ∈ group_keys (groups2 df) ↔
    all_present k = true ∧ ∃ r, r ∈ medal_records df (key2 df) k.
  Proof.
    rewrite elem_of_group_keys. split.
    - intros (r' & Hr' & <-). apply grouped2_spec in Hr' as (r & Hr & -> & Hm & Hk).
      split; [exact Hk|]. exists r. apply elem_of_medal_records. by repeat split.
    - intros (Hk & r & Hr). apply elem_of_medal_records in Hr as (Hr & Hm & <-).
      exists (record4 df r). split; [|done].
      apply grouped2_spec. by exists r.
  Qed.

Lemma nunique_distinct k :
    all_present k = true →
    n_distinct (countries_of df k)
      (length (remove_dups
         (List.filter notna (values_in (mkSeriesGroupBy (groups2 df) 2) k)))).
  Proof.
    intros Hk. eexists. split; [apply NoDup_remove_dups|]. split; [|done].
    intros x. rewrite elem_of_remove_dups.
    rewrite list_elem_of_In, List.filter_In, <- list_elem_of_In.
    unfold values_in, countries_of. simpl. rewrite list_elem_of_fmap. split.
    - intros [(r' & -> & Hr') Hx]. split; [done|].
      apply (members2_spec df k r' Hk) in Hr' as (r & Hr & -> & Hm & Hkey).
      exists r. split; [|done]. apply elem_of_medal_records. by repeat split.
    - intros (Hx & r & Hr & <-). split; [|done].
      apply elem_of_medal_records in Hr as (Hr & Hm & Hkey).
      exists (record4 df r). split; [done|].
      apply (members2_spec df k _ Hk). by exists r.
  Qed.
End GroupKeys.

Lemma rows_reset_index_size name g row :
  row ∈ rows (reset_index name (size g)) ↔
  ∃ k, k ∈ group_keys g ∧ row = (k ++ [count_cell (length (members g k))])%list.
Proof.
  unfold reset_index, size. simpl. rewrite list_elem_of_fmap. split.
  - intros ([k c] & -> & He). apply list_elem_of_fmap in He as (k' & [= -> ->] & Hk').
    by exists k'.
  - intros (k & Hk & ->). eexists (k, _). split; [done|].
    apply list_elem_of_fmap. by exists k.
Qed.

Lemma rows_reset_index_nunique name sg row :
  row ∈ rows (reset_index name (nunique sg)) ↔
  ∃ k, k ∈ group_keys (of_groups sg) ∧
       row = (k ++ [count_cell (length (remove_dups
                       (List.filter notna (values_in sg k))))])%list.
Proof.
  unfold reset_index, nunique. simpl. rewrite list_elem_of_fmap. split.
  - intros ([k c] & -> & He). apply list_elem_of_fmap in He as (k' & [= -> ->] & Hk').
    by exists k'.
  - intros (k & Hk & ->). eexists (k, _). split; [done|].
    apply list_elem_of_fmap. by exists k.
Qed.

(** The key columns of an aggregate table are its group keys. *)
Lemma keys_of_reset_index name (s : Series) n :
  (∀ e, e ∈ entries s → length (fst e) = n) →
  map (take n) (rows (reset_index name s)) = map fst (entries s).
Proof.
  intros Hlen. unfold reset_index. simpl. rewrite List.map_map.
  apply List.map_ext_in. intros e He. apply list_elem_of_In in He.
  rewrite take_app_length'; [done | symmetry; by apply Hlen].
Qed.

Lemma NoDup_keys_size name g :
  NoDup (map (take (length (by_index g))) (rows (reset_index name (size g)))).
Proof.
  rewrite (keys_of_reset_index name (size g) (length (by_index g))).
  - unfold size. simpl. rewrite List.map_map. simpl. rewrite List.map_id.
    apply NoDup_group_keys.
  - intros e He. unfold size in He. simpl in He.
    apply list_elem_of_fmap in He as (k & -> & Hk). simpl.
    by apply group_key_length.
Qed.

Lemma NoDup_keys_nunique name sg :
  NoDup (map (take (length (by_index (of_groups sg))))
           (rows (reset_index name (nunique sg)))).
Proof.
  rewrite (keys_of_reset_index name (nunique sg) (length (by_index (of_groups sg)))).
  - unfold nunique. simpl. rewrite List.map_map. simpl. rewrite List.map_id.
    apply NoDup_group_keys.
  - intros e He. unfold nunique in He. simpl in He.
    apply list_elem_of_fmap in He as (k & -> & Hk). simpl.
    by apply group_key_length.
Qed.

Lemma key_of_length3 (k : list Cell) :
  length k = 3%nat → ∃ y s n, k = [y; s; n].
Proof. destruct k as [|y [|s [|n [|]]]]; intros [=]. by exists y, s, n. Qed.

Lemma key_of_length2 (k : list Cell) :
  length k = 2%nat → ∃ y s, k = [y; s].
Proof. destruct k as [|y [|s [|]]]; intros [=]. by exists y, s. Qed.

Lemma medal_counts_rows df row :
  row ∈ rows (reset_index "Medal_Count" (size (groups3 df))) ↔
  ∃ y s n,
    all_present [y; s; n] = true ∧
    (∃ r, r ∈ medal_records df (key3 df) [y; s; n]) ∧
    row = [y; s; n; count_cell (length (medal_records df (key3 df) [y; s; n]))].
Proof.
  rewrite rows_reset_index_size. split.
  - intros (k & Hk & ->).
    destruct (key_of_length3 k) as (y & s & n & ->); [by apply (group_key_length _ _ Hk)|].
    apply group_keys3_spec in Hk as [Hp Hr].
    exists y, s, n. repeat split; try done. simpl. by rewrite members3_length.
  - intros (y & s & n & Hp & Hr & ->). exists [y; s; n]. split.
    + by apply group_keys3_spec.
    + simpl. by rewrite members3_length.
Qed.

Lemma country_counts_rows df row :
  row ∈ rows (reset_index "Countries_with_Medals"
                (nunique (mkSeriesGroupBy (groups2 df) 2))) ↔
  ∃ y s v,
    all_present [y; s] = true ∧
    (∃ r, r ∈ medal_records df (key2 df) [y; s]) ∧
    n_distinct (countries_of df [y; s]) v ∧
    row = [y; s; count_cell v].
Proof.
  rewrite rows_reset_index_nunique. simpl. split.
  - intros (k & Hk & ->).
    destruct (key_of_length2 k) as (y & s & ->); [by apply (group_key_length _ _ Hk)|].
    apply group_keys2_spec in Hk as [Hp Hr].
    exists y, s. eexists. repeat split; try done. by apply nunique_distinct.
  - intros (y & s & v & Hp & Hr & Hv & ->). exists [y; s]. split.
    + by apply group_keys2_spec.
    + simpl. do 3 f_equal. f_equal.
      eapply n_distinct_unique; [exact Hv | by apply nunique_distinct].
Qed.

(** * Properties of the Transformer *)

(** A table that lacks one of the four columns stops the Transformer at
    the projection. *)
Example transform_frames_needs_medal :
  transform_frames (mkDataFrame ["year"; "season"; "noc"] [ [Int 2012; Txt "Summer"; Txt "USA"] ])
  = Raise (KeyError "medal").
Proof. reflexivity. Qed.

(** C1, as stated, does not hold: a medal-present record whose noc is
    missing has no row in MedalCount, and its (year, season) is listed in
    CountryCount with zero countries.  Grouping leaves out the records
    with a missing key, and the distinct count skips missing values. *)
Lemma medal_record_not_counted :
  has_columns four stateless_medal_table ∧
  [Int 2012; Txt "Summer"; NaN; Txt "Gold"] ∈ rows stateless_medal_table ∧
  medal_present stateless_medal_table [Int 2012; Txt "Summer"; NaN; Txt "Gold"] = true ∧
  transform_frames stateless_medal_table
    = Ok (mkDataFrame ["year"; "season"; "noc"; "Medal_Count"] [],
          mkDataFrame ["year"; "season"; "Countries_with_Medals"]
            [ [Int 2012; Txt "Summer"; Int 0] ]) ∧
  ¬ every_medal_record_counted.
Proof.
  assert (has_columns four stateless_medal_table) as Hc
    by (intros n Hn; exact Hn).
  assert ([Int 2012; Txt "Summer"; NaN; Txt "Gold"] ∈ rows stateless_medal_table)
    as Hr by (simpl; constructor).
  repeat split; try done.
  intros H.
  pose proof (H stateless_medal_table _ _ _ Hc eq_refl Hr eq_refl) as Hm.
  simpl in Hm. inversion Hm.
Qed.

(** C1, amended.  On every table that carries the four columns, the
    Transformer projects each record to (year, season, noc, medal), keeps
    exactly the records whose medal is present, and returns two tables.
    MedalCount has exactly one row for every (year, season, noc) that is
    the key of a medal-present record and has its year, season and noc all
    present, holding the number of medal-present records with that key.
    CountryCount has exactly one row for every (year, season) that is the
    key of a medal-present record and has its year and season both
    present, holding the number of distinct noc values, the missing one
    not counted, among the medal-present records with that key.  A record
    with a missing year, season or noc has no row in MedalCount; one with
    a missing year or season has none in CountryCount. *)
Theorem transform_frames_aggregates (df : DataFrame) :
  has_columns four df →
  ∃ df4 df_filtered medal_counts country_counts,
    getitem four df = Ok df4 ∧
    rows df4 = map (record4 df) (rows df) ∧
    dropna ["medal"] df4 = Ok df_filtered ∧
    rows df_filtered = List.filter (fun r => notna (field df4 "medal" r)) (rows df4) ∧
    transform_frames df = Ok (medal_counts, country_counts) ∧
    (∀ row, row ∈ rows medal_counts ↔
       ∃ y s n,
         all_present [y; s; n] = true ∧
         (∃ r, r ∈ medal_records df (key3 df) [y; s; n]) ∧
         row = [y; s; n; count_cell (length (medal_records df (key3 df) [y; s; n]))]) ∧
    NoDup (map (take 3) (rows medal_counts)) ∧
    (∀ row, row ∈ rows country_counts ↔
       ∃ y s v,
         all_present [y; s] = true ∧
         (∃ r, r ∈ medal_records df (key2 df) [y; s]) ∧
         n_distinct (countries_of df [y; s]) v ∧
         row = [y; s; count_cell v]) ∧
    NoDup (map (take 2) (rows country_counts)).
Proof.
  intros Hc. do 4 eexists.
  split; [by apply getitem_four|]. split; [done|].
  split; [reflexivity|]. split.
  { simpl. apply List.filter_ext. intros r. unfold field. simpl.
    by rewrite andb_true_r. }
  split; [by apply transform_frames_unfold|].
  split; [apply medal_counts_rows|].
  split; [apply (NoDup_keys_size "Medal_Count" (groups3 df))|].
  split; [apply country_counts_rows|].
  apply (NoDup_keys_nunique "Countries_with_Medals" (mkSeriesGroupBy (groups2 df) 2)).
Qed.

Lemma scenario_has_columns : has_columns four scenario_table.
Proof. intros n Hn. exact Hn. Qed.

Lemma transform_frames_aggregates_witness :
  has_columns four scenario_table ∧
  ∃ medal_counts country_counts,
    transform_frames scenario_table = Ok (medal_counts, country_counts) ∧
    NoDup (map (take 3) (rows medal_counts)) ∧
    NoDup (map (take 2) (rows country_counts)).
Proof.
  split; [exact scenario_has_columns|].
  destruct (transform_frames_aggregates scenario_table scenario_has_columns)
    as (df4 & dff & mc & cc & _ & _ & _ & _ & Ht & _ & Hn3 & _ & Hn2).
  exists mc, cc. by repeat split.
Defined.

Lemma n_distinct_iff (P Q : Cell → Prop) n :
  (∀ x, P x ↔ Q x) → n_distinct P n → n_distinct Q n.
Proof.
  intros HPQ (l & Hl & Hx & Hn). exists l. repeat split; try done.
  - intros Hin. apply HPQ. by apply Hx.
  - intros HQ. apply Hx. by apply HPQ.
Qed.

(** The countries of a (year, season) group are the noc values of the
    MedalCount rows of that (year, season). *)
Lemma countries_in_medal_counts df y s n :
  all_present [y; s] = true →
  countries_of df [y; s] n ↔
  ∃ c, [y; s; n; c] ∈ rows (reset_index "Medal_Count" (size (groups3 df))).
Proof.
  intros Hp. split.
  - intros (Hn & r & Hr & Hnoc).
    apply elem_of_medal_records in Hr as (Hr & Hm & Hk).
    unfold key2 in Hk. injection Hk as Hy Hs.
    eexists. apply medal_counts_rows. exists y, s, n. split; [|split; [|done]].
    + simpl in *. by rewrite Hn.
    + exists r. apply elem_of_medal_records. repeat split; try done.
      unfold key3. by rewrite Hy, Hs, Hnoc.
  - intros (c & Hrow).
    apply medal_counts_rows in Hrow as (y' & s' & n' & Hp' & (r & Hr) & Heq).
    injection Heq as <- <- <- _.
    apply elem_of_medal_records in Hr as (Hr & Hm & Hk).
    unfold key3 in Hk. injection Hk as Hy Hs Hn. split.
    + simpl in Hp'. by repeat (apply andb_true_iff in Hp' as [? Hp']).
    + exists r. split; [|done]. apply elem_of_medal_records. repeat split; try done.
      unfold key2. by rewrite Hy, Hs.
Qed.

(** C4. The two aggregate tables computed from one input agree: the value
    of every CountryCount row (year, season, v) is the number of distinct
    noc values found in the MedalCount rows of that (year, season). *)
Theorem country_counts_match_medal_counts (df : DataFrame) :
  has_columns four df →
  ∃ medal_counts country_counts,
    transform_frames df = Ok (medal_counts, country_counts) ∧
    ∀ y s v, [y; s; v] ∈ rows country_counts →
      ∃ m, n_distinct (fun n => ∃ c, [y; s; n; c] ∈ rows medal_counts) m ∧
           v = count_cell m.
Proof.
  intros Hc. do 2 eexists. split; [by apply transform_frames_unfold|].
  intros y s v Hrow.
  apply country_counts_rows in Hrow as (y' & s' & m & Hp & _ & Hm & Heq).
  injection Heq as <- <- ->. exists m. split; [|done].
  eapply n_distinct_iff; [|exact Hm].
  intros n. by apply countries_in_medal_counts.
Qed.

Lemma country_counts_match_medal_counts_witness :
  has_columns four scenario_table ∧
  ∃ medal_counts country_counts,
    transform_frames scenario_table = Ok (medal_counts, country_counts) ∧
    ∀ y s v, [y; s; v] ∈ rows country_counts →
      ∃ m, n_distinct (fun n => ∃ c, [y; s; n; c] ∈ rows medal_counts) m ∧
           v = count_cell m.
Proof.
  split; [exact scenario_has_columns|].
  exact (country_counts_match_medal_counts scenario_table scenario_has_columns).
Defined.

(** C10. The aggregate rows are key-unique by construction: no two
    MedalCount rows share their (year, season, noc) and no two CountryCount
    rows share their (year, season). *)
Theorem aggregates_key_unique (df : DataFrame) :
  has_columns four df →
  ∃ medal_counts country_counts,
    transform_frames df = Ok (medal_counts, country_counts) ∧
    NoDup (map (take 3) (rows medal_counts)) ∧
    NoDup (map (take 2) (rows country_counts)).
Proof.
  intros Hc. do 2 eexists. split; [by apply transform_frames_unfold|]. split.
  - apply (NoDup_keys_size "Medal_Count" (groups3 df)).
  - apply (NoDup_keys_nunique "Countries_with_Medals" (mkSeriesGroupBy (groups2 df) 2)).
Qed.

Lemma aggregates_key_unique_witness :
  has_columns four scenario_table ∧
  ∃ medal_counts country_counts,
    transform_frames scenario_table = Ok (medal_counts, country_counts) ∧
    NoDup (map (take 3) (rows medal_counts)) ∧
    NoDup (map (take 2) (rows country_counts)).
Proof.
  split; [exact scenario_has_columns|].
  exact (aggregates_key_unique scenario_table scenario_has_columns).
Defined.


(** * The Loader *)

Lemma lookup_medal_query :
  lookup_name {["create_medal_table_query" := medal_counts_statement]}
    "create_medal_table_query" = mret medal_counts_statement.
Proof. reflexivity. Qed.

Lemma lookup_country_query :
  lookup_name
    (<["create_medal_table_query" := country_counts_statement]>
       {["create_medal_table_query" := medal_counts_statement]})
    "create_country_table_query" = raise (NameError "create_country_table_query").
Proof. reflexivity. Qed.

Lemma delete_create_if_absent q (db : gmap string SqlTable) :
  delete (ct_table q) (create_if_absent q db) = delete (ct_table q) db.
Proof.
  unfold create_if_absent. destruct (db !! ct_table q); [done|].
  apply delete_insert_eq.
Qed.

Lemma insert_create_if_absent q t (db : gmap string SqlTable) :
  <[ct_table q := t]> (create_if_absent q db) = <[ct_table q := t]> db.
Proof.
  unfold create_if_absent. destruct (db !! ct_table q); [done|].
  apply insert_insert_eq.
Qed.

Lemma create_if_absent_exists q (db : gmap string SqlTable) :
  is_Some (create_if_absent q db !! ct_table q).
Proof.
  unfold create_if_absent. destruct (db !! ct_table q) eqn:H.
  - rewrite H. by eexists.
  - rewrite lookup_insert_eq. by eexists.
Qed.

Section ToSql.
Variable raises : StoreCall → bool.

Lemma to_sql_replace df name w :
  is_Some (store w !! name) →
  to_sql raises df name (mkConnection None) w =
  if raises (DropTable name) then (Raise (OperationalError "statement failed"), w)
  else if raises (CreateTable name)
       then (Raise (OperationalError "statement failed"),
             set_store (delete name (store w)) w)
  else if raises (InsertRows name)
       then (Raise (OperationalError "statement failed"),
             set_store (<[name := mkTable (frame_schema df) [] []]> (store w)) w)
  else (Ok (mkConnection None), set_store (<[name := written_table df]> (store w)) w).
Proof.
  intros Hex. unfold to_sql, execute_ddl, execute_dml, commit_transaction, guard.
  unfold mbind, Run_bind, mret, Run_ret, gets, modify, raise, view. simpl.
  rewrite bool_decide_eq_true_2 by done.
  destruct (raises (DropTable name)); [done|]. simpl.
  destruct (raises (CreateTable name)); [done|]. simpl.
  destruct (raises (InsertRows name)); simpl.
  - by rewrite insert_delete_eq.
  - unfold set_store. simpl. f_equal. f_equal.
    rewrite insert_delete_eq. unfold written_table.
    by rewrite alter_insert_eq.
Qed.

(** [load_data] on a world whose two aggregate files can be read: it
    always stops with an error, at the first call on the store that raises
    or else at the unbound name, and leaves the store as the calls made so
    far have left it. *)
Lemma load_data_unfold w medal_counts country_counts :
  read_csv_file "transformed_medal_counts.csv" w = (Ok medal_counts, w) →
  read_csv_file "transformed_country_counts.csv" w = (Ok country_counts, w) →
  load_data raises w =
  (Raise (load_error raises),
   mkWorld (files w) (loaded_store raises medal_counts (store w))
     (if raises Connect then open_connections w else S (open_connections w))).
Proof.
  intros Hm Hc. unfold load_data.
  unfold mbind at 1, Run_bind at 1. rewrite Hm.
  unfold mbind at 1, Run_bind at 1. rewrite Hc.
  unfold load_error, loaded_store.
  unfold mbind at 1, Run_bind at 1.
  unfold connect, guard, mbind at 1 2, Run_bind at 1 2.
  destruct (raises Connect) eqn:HC; [by destruct w|]. simpl.
  rewrite lookup_medal_query.
  unfold mbind at 1, Run_bind at 1. simpl.
  unfold mbind at 1, Run_bind at 1.
  unfold execute, execute_ddl, guard. simpl.
  unfold mbind at 1, Run_bind at 1.
  destruct (raises (Execute "MedalCounts")) eqn:HE; [done|]. simpl.
  unfold mbind at 1, Run_bind at 1.
  rewrite to_sql_replace by apply (create_if_absent_exists medal_counts_statement).
  destruct (raises (DropTable "MedalCounts")) eqn:HD; [done|].
  destruct (raises (CreateTable "MedalCounts")) eqn:HT.
  { simpl. unfold set_store. simpl.
    by rewrite (delete_create_if_absent medal_counts_statement). }
  destruct (raises (InsertRows "MedalCounts")) eqn:HI.
  { simpl. unfold set_store. simpl.
    by rewrite (insert_create_if_absent medal_counts_statement). }
  rewrite lookup_country_query. simpl. unfold set_store. simpl.
  by rewrite (insert_create_if_absent medal_counts_statement).
Qed.
End ToSql.

Lemma read_csv_file_cases path w :
  (∃ df, read_csv_file path w = (Ok df, w)) ∨
  (∃ e, read_csv_file path w = (Raise e, w)).
Proof.
  unfold read_csv_file. destruct (files w !! path) as [[objs|f]|].
  - right. by eexists.
  - destruct (read_csv f) as [df|e]; [left | right]; by eexists.
  - right. by eexists.
Qed.

(** Every run of [load_data] raises: either before it has touched
    anything, or as [load_data_unfold] describes. *)
Lemma load_data_cases raises w :
  (∃ e, load_data raises w = (Raise e, w)) ∨
  (∃ medal_counts country_counts,
     read_csv_file "transformed_medal_counts.csv" w = (Ok medal_counts, w) ∧
     read_csv_file "transformed_country_counts.csv" w = (Ok country_counts, w) ∧
     load_data raises w =
     (Raise (load_error raises),
      mkWorld (files w) (loaded_store raises medal_counts (store w))
        (if raises Connect then open_connections w else S (open_connections w)))).
Proof.
  destruct (read_csv_file_cases "transformed_medal_counts.csv" w) as [[m Hm]|[e He]].
  - destruct (read_csv_file_cases "transformed_country_counts.csv" w) as [[c Hc]|[e He]].
    + right. exists m, c. repeat split; try done. by apply load_data_unfold with c.
    + left. exists e. unfold load_data.
      unfold mbind at 1, Run_bind at 1. rewrite Hm.
      unfold mbind at 1, Run_bind at 1. by rewrite He.
  - left. exists e. unfold load_data.
    unfold mbind at 1, Run_bind at 1. by rewrite He.
Qed.

Lemma fresh_world_readable :
  read_csv_file "transformed_medal_counts.csv" fresh_world
    = (Ok scenario_medal_counts, fresh_world) ∧
  read_csv_file "transformed_country_counts.csv" fresh_world
    = (Ok scenario_country_counts, fresh_world).
Proof. split; vm_compute; reflexivity. Qed.

Lemma loaded_world_readable :
  read_csv_file "transformed_medal_counts.csv" loaded_world
    = (Ok scenario_medal_counts, loaded_world) ∧
  read_csv_file "transformed_country_counts.csv" loaded_world
    = (Ok scenario_country_counts, loaded_world).
Proof. split; vm_compute; reflexivity. Qed.

(** C2.  The Loader does not complete.  On every world whose two aggregate
    files can be read, and with a store on which no call raises, it stops
    at the name of the CountryCounts creation statement, which is not
    bound: MedalCounts has been replaced by then, CountryCounts has been
    neither created nor written. *)
Theorem load_data_stops_at_unbound_name (w : World) (medal_counts country_counts : DataFrame) :
  read_csv_file "transformed_medal_counts.csv" w = (Ok medal_counts, w) →
  read_csv_file "transformed_country_counts.csv" w = (Ok country_counts, w) →
  ∃ w',
    load_data no_faults w = (Raise (NameError "create_country_table_query"), w') ∧
    store w' !! "MedalCounts" = Some (written_table medal_counts) ∧
    store w' !! "CountryCounts" = store w !! "CountryCounts".
Proof.
  intros Hm Hc. eexists. split; [by apply load_data_unfold with country_counts|].
  simpl. split.
  - apply lookup_insert_eq.
  - by apply lookup_insert_ne.
Qed.

Lemma load_data_stops_at_unbound_name_witness :
  ∃ w',
    load_data no_faults fresh_world
      = (Raise (NameError "create_country_table_query"), w') ∧
    store w' !! "MedalCounts" = Some (written_table scenario_medal_counts) ∧
    store w' !! "CountryCounts" = None.
Proof.
  refine (load_data_stops_at_unbound_name fresh_world
            scenario_medal_counts scenario_country_counts _ _);
    vm_compute; reflexivity.
Defined.

(** C7.  The declared primary keys do not survive a run of the Loader.
    Whatever the store held, once the Loader has written MedalCounts the
    table is the one [to_sql] created, which declares no key, although the
    creation statement executed just before declares (year, season, noc);
    and the creation statement of CountryCounts is not executed at all. *)
Theorem load_data_drops_primary_key (w : World) (medal_counts country_counts : DataFrame) :
  read_csv_file "transformed_medal_counts.csv" w = (Ok medal_counts, w) →
  read_csv_file "transformed_country_counts.csv" w = (Ok country_counts, w) →
  ∃ e w' t,
    load_data no_faults w = (Raise e, w') ∧
    store w' !! "MedalCounts" = Some t ∧
    tbl_primary_key t = [] ∧
    ct_primary_key medal_counts_statement = ["year"; "season"; "noc"] ∧
    store w' !! "CountryCounts" = store w !! "CountryCounts".
Proof.
  intros Hm Hc. do 3 eexists.
  split; [by apply load_data_unfold with country_counts|].
  simpl. split; [apply lookup_insert_eq|].
  repeat split. by apply lookup_insert_ne.
Qed.

Lemma load_data_drops_primary_key_witness :
  tbl_primary_key <$> store loaded_world !! "MedalCounts"
    = Some ["year"; "season"; "noc"] ∧
  ∃ e w' t,
    load_data no_faults loaded_world = (Raise e, w') ∧
    store w' !! "MedalCounts" = Some t ∧
    tbl_primary_key t = [] ∧
    ct_primary_key medal_counts_statement = ["year"; "season"; "noc"] ∧
    store w' !! "CountryCounts" = store loaded_world !! "CountryCounts".
Proof.
  split; [reflexivity|].
  refine (load_data_drops_primary_key loaded_world
            scenario_medal_counts scenario_country_counts _ _);
    vm_compute; reflexivity.
Defined.

(** C3, as stated, does not hold: a run of the Loader that raises has
    already replaced the rows of MedalCounts. *)
Lemma load_failure_not_atomic :
  load_data no_faults loaded_world
    = (Raise (NameError "create_country_table_query"),
       snd (load_data no_faults loaded_world)) ∧
  contents loaded_world "MedalCounts"
    = Some [ [Int 2008; Txt "Summer"; Txt "USA"; Int 1] ] ∧
  contents (snd (load_data no_faults loaded_world)) "MedalCounts"
    = Some [ [Int 2012; Txt "Summer"; Txt "USA"; Int 2] ] ∧
  ¬ load_failure_atomic.
Proof.
  split; [vm_compute; reflexivity|]. split; [reflexivity|].
  split; [vm_compute; reflexivity|].
  intros H.
  destruct (H no_faults loaded_world (snd (load_data no_faults loaded_world))
              (NameError "create_country_table_query")) as [Hm _].
  - vm_compute. reflexivity.
  - vm_compute in Hm. discriminate Hm.
Qed.

(** C3, amended.  A run of the Loader that raises leaves the store as the
    calls made before the failure have left it.  When the connection
    cannot be opened, or the creation statement of MedalCounts raises, the
    store is exactly as it was.  When the calls up to and including the
    write of MedalCounts have gone through, MedalCounts holds the new
    aggregate: the write is committed on its own and nothing undoes it. *)
Theorem load_failure_effect (raises : StoreCall → bool) (w w' : World) (e : PyError) :
  load_data raises w = (Raise e, w') →
  (raises Connect = true ∨ raises (Execute "MedalCounts") = true →
   store w' = store w) ∧
  (∀ medal_counts country_counts,
     read_csv_file "transformed_medal_counts.csv" w = (Ok medal_counts, w) →
     read_csv_file "transformed_country_counts.csv" w = (Ok country_counts, w) →
     raises Connect = false →
     raises (Execute "MedalCounts") = false →
     raises (DropTable "MedalCounts") = false →
     raises (CreateTable "MedalCounts") = false →
     raises (InsertRows "MedalCounts") = false →
     contents w' "MedalCounts" = Some (rows medal_counts)).
Proof.
  intros Hrun. split.
  - intros Hr. destruct (load_data_cases raises w) as [[e' He']|(m & c & _ & _ & Hl)].
    + rewrite He' in Hrun. by injection Hrun as _ <-.
    + rewrite Hl in Hrun. injection Hrun as _ <-. simpl.
      unfold loaded_store. destruct (raises Connect); [done|].
      destruct Hr as [Hr|Hr]; [done|]. by rewrite Hr.
  - intros m c Hm Hc HC HE HD HT HI.
    rewrite (load_data_unfold raises w m c Hm Hc) in Hrun.
    injection Hrun as _ <-. unfold contents, loaded_store. simpl.
    rewrite HC, HE, HD, HT, HI. by rewrite lookup_insert_eq.
Qed.

Lemma load_failure_effect_witness :
  contents loaded_world "MedalCounts" = Some [ [Int 2008; Txt "Summer"; Txt "USA"; Int 1] ] ∧
  contents (snd (load_data no_faults loaded_world)) "MedalCounts"
    = Some [ [Int 2012; Txt "Summer"; Txt "USA"; Int 2] ].
Proof.
  split; [reflexivity|].
  refine (proj2 (load_failure_effect no_faults loaded_world
                   (snd (load_data no_faults loaded_world))
                   (NameError "create_country_table_query") _)
            scenario_medal_counts scenario_country_counts _ _ _ _ _ _ _);
    vm_compute; reflexivity.
Defined.

(** C6, as stated, does not hold: a run of the Loader on a store that
    answers every call leaves its connection open. *)
Lemma connection_not_always_closed :
  open_connections fresh_world = 0%nat ∧
  open_connections (snd (load_data no_faults fresh_world)) = 1%nat ∧
  ¬ connection_always_closed.
Proof.
  split; [reflexivity|]. split; [vm_compute; reflexivity|].
  intros H. specialize (H no_faults fresh_world).
  vm_compute in H. discriminate H.
Qed.

(** C6, amended.  The Loader closes its connection in one place, the end
    of its last line.  When a call made after the connection has been
    opened raises, the error leaves the Loader and the connection stays
    open; when the opening itself raises, no connection is left open and
    the store is as it was. *)
Theorem load_failure_leaves_connection_open
    (raises : StoreCall → bool) (w w' : World) (e : PyError) :
  load_data raises w = (Raise e, w') →
  (∀ medal_counts country_counts,
     read_csv_file "transformed_medal_counts.csv" w = (Ok medal_counts, w) →
     read_csv_file "transformed_country_counts.csv" w = (Ok country_counts, w) →
     raises Connect = false →
     open_connections w' = S (open_connections w)) ∧
  (raises Connect = true →
   open_connections w' = open_connections w ∧ store w' = store w).
Proof.
  intros Hrun. split.
  - intros m c Hm Hc HC.
    rewrite (load_data_unfold raises w m c Hm Hc) in Hrun.
    injection Hrun as _ <-. simpl. by rewrite HC.
  - intros HC. destruct (load_data_cases raises w) as [[e' He']|(m & c & _ & _ & Hl)].
    + rewrite He' in Hrun. by injection Hrun as _ <-.
    + rewrite Hl in Hrun. injection Hrun as _ <-. simpl.
      unfold loaded_store. by rewrite HC.
Qed.

Lemma load_failure_leaves_connection_open_witness :
  open_connections fresh_world = 0%nat ∧
  open_connections (snd (load_data no_faults fresh_world)) = 1%nat.
Proof.
  split; [reflexivity|].
  refine (proj1 (load_failure_leaves_connection_open no_faults fresh_world
                   (snd (load_data no_faults fresh_world))
                   (NameError "create_country_table_query") _)
            scenario_medal_counts scenario_country_counts _ _ _);
    vm_compute; reflexivity.
Defined.

(** * The Extractor *)

Lemma as_int_string_of_Z z : as_int (string_of_Z z) = Some z.
Proof.
  unfold string_of_Z.
  assert (NilZero.int_of_string (NilZero.string_of_int (Z.to_int z)) = Some (Z.to_int z))
    as Hisi.
  { apply NilZero.isi; destruct z; try discriminate; simpl; intros [= H];
      by apply (Unsigned.to_uint_nonnil p). }
  unfold as_int.
  destruct (NilZero.string_of_int (Z.to_int z)) as [|a t] eqn:Hs; [simpl in Hisi; discriminate Hisi|].
  destruct (Ascii.eqb_spec a "+") as [->|_].
  - simpl in Hisi. destruct (NilEmpty.uint_of_string t); discriminate Hisi.
  - rewrite Hisi. simpl. by rewrite DecimalZ.of_to.
Qed.

Lemma uint_of_char_digit a d d' :
  uint_of_char a d = Some d' →
  number_char a = true ∧ Ascii.eqb a "." = false ∧ ∃ d0, d = Some d0.
Proof.
  destruct d as [d|]; [|done].
  destruct a as [[] [] [] [] [] [] [] []]; simpl; intros H; try discriminate H;
    (split; [reflexivity| split; [reflexivity| by eexists]]).
Qed.

Lemma uint_of_string_chars t d :
  NilEmpty.uint_of_string t = Some d → letters_of t = "" ∧ split_point t = (t, None).
Proof.
  revert d. induction t as [|a t IH]; intros d H; [done|].
  simpl in H. apply uint_of_char_digit in H as (Hn & Hp & d0 & Hd).
  destruct (IH d0 Hd) as [Hl Hs]. simpl. by rewrite Hn, Hp, Hs.
Qed.

Lemma as_int_chars t z :
  as_int t = Some z → letters_of t = "" ∧ split_point t = (t, None).
Proof.
  destruct t as [|a t]; [done|]. unfold as_int.
  destruct (Ascii.eqb_spec a "+") as [->|Hplus].
  - destruct t as [|b t]; [done|]. unfold NilZero.uint_of_string.
    destruct (NilEmpty.uint_of_string (String b t)) eqn:Hu; [|done].
    destruct (uint_of_string_chars _ _ Hu) as [Hl Hs]. intros _.
    split.
    + change (letters_of (String "+" (String b t))) with (letters_of (String b t)).
      exact Hl.
    + change (split_point (String "+" (String b t)))
        with (let '(whole, fraction) := split_point (String b t) in
              (String "+"%char whole, fraction)).
      by rewrite Hs.
  - unfold NilZero.int_of_string.
    destruct (Ascii.eqb_spec a "-") as [->|Hminus].
    + destruct t as [|b t]; [done|]. unfold NilZero.uint_of_string.
      destruct (NilEmpty.uint_of_string (String b t)) eqn:Hu; [|done].
      destruct (uint_of_string_chars _ _ Hu) as [Hl Hs]. intros _.
      split.
      * change (letters_of (String "-" (String b t))) with (letters_of (String b t)).
        exact Hl.
      * change (split_point (String "-" (String b t)))
          with (let '(whole, fraction) := split_point (String b t) in
                (String "-"%char whole, fraction)).
        by rewrite Hs.
    + unfold NilZero.uint_of_string.
      destruct (NilEmpty.uint_of_string (String a t)) eqn:Hu; [|done].
      intros _. by apply uint_of_string_chars with u.
Qed.

Lemma zeros_chars t : zeros t = true → letters_of t = "".
Proof.
  induction t as [|a t IH]; [done|]. simpl. intros H.
  apply andb_true_iff in H as [Ha Ht]. apply Ascii.eqb_eq in Ha as ->.
  by apply IH.
Qed.

Lemma split_point_letters t :
  letters_of t
  = (letters_of (fst (split_point t)) ++ letters_of (default "" (snd (split_point t)))).
Proof.
  induction t as [|a t IH]; [done|]. simpl.
  destruct (Ascii.eqb_spec a ".") as [->|Hne]; [done|].
  destruct (split_point t) as [whole fraction]. simpl in *.
  destruct (number_char a); [done|]. simpl. by rewrite IH.
Qed.

Lemma as_number_chars t z : as_number t = Some z → letters_of t = "".
Proof.
  unfold as_number. rewrite (split_point_letters t).
  destruct (split_point t) as [whole [fraction|]]; simpl.
  - destruct (zeros fraction) eqn:Hz; [|done]. intros H.
    destruct (as_int_chars _ _ H) as [-> _]. by rewrite (zeros_chars _ Hz).
  - intros H. by destruct (as_int_chars _ _ H) as [-> _].
Qed.

Lemma split_point_app t u :
  split_point t = (t, None) → split_point (t ++ String "." u) = (t, Some u).
Proof.
  induction t as [|a t IH]; [done|]. simpl.
  destruct (Ascii.eqb a "."); [done|].
  destruct (split_point t) as [whole fraction]. intros [= -> ->].
  by rewrite IH.
Qed.

Lemma as_number_string_of_Z z : as_number (string_of_Z z) = Some z.
Proof.
  pose proof (as_int_string_of_Z z) as H. unfold as_number.
  destruct (as_int_chars _ _ H) as [_ ->]. exact H.
Qed.

Lemma as_number_float z : as_number (string_of_Z z ++ ".0") = Some z.
Proof.
  pose proof (as_int_string_of_Z z) as H. unfold as_number.
  destruct (as_int_chars _ _ H) as [_ Hs].
  rewrite (split_point_app _ "0" Hs). exact H.
Qed.

Lemma is_na_not_number t : is_na t = true → as_number t = None.
Proof.
  unfold is_na, na_values. intros H. apply bool_decide_eq_true in H.
  repeat (apply elem_of_cons in H as [->|H]; [reflexivity|]).
  by apply elem_of_nil in H.
Qed.

Lemma is_na_string_of_Z z : is_na (string_of_Z z) = false.
Proof.
  destruct (is_na (string_of_Z z)) eqn:H; [|done].
  apply is_na_not_number in H. by rewrite as_number_string_of_Z in H.
Qed.

Lemma is_na_float z : is_na (string_of_Z z ++ ".0") = false.
Proof.
  destruct (is_na (string_of_Z z ++ ".0")) eqn:H; [|done].
  apply is_na_not_number in H. by rewrite as_number_float in H.
Qed.

Lemma lower_ascii_nan a :
  lower_ascii a = "n"%char ∨ lower_ascii a = "a"%char → number_char a = false.
Proof.
  destruct a as [[] [] [] [] [] [] [] []]; vm_compute;
    intros [H|H]; try discriminate H; reflexivity.
Qed.

Lemma lower_letters_nan u : lower u = "nan" → letters_of u = u.
Proof.
  destruct u as [|a [|b [|c [|d u]]]]; simpl; try discriminate.
  intros [= Ha Hb Hc].
  rewrite (lower_ascii_nan a), (lower_ascii_nan b), (lower_ascii_nan c); auto.
Qed.

Lemma number_like_letters s :
  letters_of s = "" → number_like s = true.
Proof. intros H. unfold number_like. by rewrite H. Qed.

Lemma py_float_number_like s c : py_float s = Some c → number_like s = true.
Proof.
  unfold py_float.
  set (unsigned := match s with
                   | String a s' =>
                       if Ascii.eqb a "+"%char || Ascii.eqb a "-"%char then s' else s
                   | EmptyString => s
                   end).
  destruct (String.eqb_spec (lower unsigned) "nan") as [Hnan|_].
  - intros _. pose proof (lower_letters_nan _ Hnan) as Hl.
    assert (letters_of s = unsigned) as Hs.
    { unfold unsigned in *. destruct s as [|a s']; [done|].
      destruct (Ascii.eqb_spec a "+") as [->|_]; [exact Hl|].
      destruct (Ascii.eqb_spec a "-") as [->|_]; [exact Hl|]. exact Hl. }
    unfold number_like. rewrite Hs, Hnan. by apply bool_decide_eq_true; set_solver.
  - destruct (as_number s) as [z|] eqn:Hz; [|done]. intros _.
    by apply number_like_letters, as_number_chars with z.
Qed.

(** What is surely a text is a text for both readers. *)
Lemma surely_text_reads_as_text s :
  surely_text s = true → is_na s = false ∧ as_number s = None ∧ py_float s = None.
Proof.
  unfold surely_text. rewrite !andb_true_iff, !negb_true_iff.
  intros [[Hna Hnum] _]. split; [done|]. split.
  - destruct (as_number s) as [z|] eqn:Hz; [|done].
    by rewrite (number_like_letters s (as_number_chars s z Hz)) in Hnum.
  - destruct (py_float s) as [c|] eqn:Hc; [|done].
    by rewrite (py_float_number_like s c Hc) in Hnum.
Qed.

(** A cell is read back from the field it was written to, when the reader
    takes the column for what it is. *)
Lemma parse_render_as float numeric c :
  (is_int_cell c = true → numeric = true) →
  (∀ s, c = Txt s → numeric = false ∧ is_na s = false) →
  parse_field numeric (render_as float c) = c.
Proof.
  intros Hi Ht. destruct c as [|z|s]; simpl; unfold parse_field.
  - reflexivity.
  - rewrite (Hi eq_refl). destruct float.
    + by rewrite is_na_float, as_number_float.
    + by rewrite is_na_string_of_Z, as_number_string_of_Z.
  - by destruct (Ht s eq_refl) as [-> ->].
Qed.

Lemma imap_fixed {A} (f : nat → A → A) (l : list A) :
  (∀ i x, l !! i = Some x → f i x = x) → imap f l = l.
Proof.
  revert f. induction l as [|x l IH]; intros f Hf; [done|]. simpl. f_equal.
  - by apply Hf.
  - apply IH. intros i y Hy. by apply (Hf (S i)).
Qed.

Lemma column_label_named j name : name ≠ "" → column_label j name = name.
Proof.
  intros Hne. unfold column_label.
  by destruct (String.eqb_spec name "").
Qed.

Lemma cells_of_row (r : list Cell) :
  map (cell_at r) (seq 0 (length r)) = r.
Proof.
  apply nth_ext with (d := NaN) (d' := NaN).
  - by rewrite length_map, length_seq.
  - intros n Hn. rewrite length_map, length_seq in Hn.
    rewrite (nth_indep _ NaN (cell_at r 0)) by (by rewrite length_map, length_seq).
    rewrite map_nth, seq_nth by done. reflexivity.
Qed.

Lemma nth_imap_render (f : nat → bool) (r : list Cell) j :
  nth j (imap (fun j c => render_as (f j) c) r) "" = render_as (f j) (cell_at r j).
Proof.
  unfold cell_at. revert f j. induction r as [|c r IH]; intros f j.
  - by destruct j.
  - destruct j as [|j]; [done|]. simpl. apply (IH (f ∘ S)).
Qed.

Lemma column_fields_to_csv df j :
  column_fields j (lines (to_csv df))
  = map (render_as (is_float df j)) (column_cells df j).
Proof.
  unfold column_fields, column_cells, to_csv. simpl. rewrite !List.map_map.
  apply List.map_ext. intros r. apply nth_imap_render.
Qed.

Lemma cell_in_column df r j : r ∈ rows df → cell_at r j ∈ column_cells df j.
Proof. intros Hr. unfold column_cells. apply list_elem_of_fmap. by exists r. Qed.

Section RoundTrip.
Variable df : DataFrame.

Lemma numeric_without_text j :
  number_cells (column_cells df j) = true →
  numeric_column (map (render_as (is_float df j)) (column_cells df j)) = true.
Proof.
  intros H. unfold numeric_column, number_cells in *. rewrite forallb_forall in *.
  intros t Ht. apply in_map_iff in Ht as (c & <- & Hc).
  specialize (H c Hc). destruct c as [|z|s]; [done| |done].
  apply orb_true_iff. right. apply bool_decide_eq_true. simpl.
  destruct (is_float df j); [rewrite as_number_float | rewrite as_number_string_of_Z];
    by eexists.
Qed.

Lemma text_not_numeric j :
  text_cells (column_cells df j) = true →
  numeric_column (map (render_as (is_float df j)) (column_cells df j)) = false.
Proof.
  intros H. unfold text_cells in H. apply andb_true_iff in H as [_ H].
  apply existsb_exists in H as (c & Hc & Hs).
  destruct c as [| |s]; try discriminate Hs.
  destruct (surely_text_reads_as_text s Hs) as (Hna & Hnum & _).
  apply not_true_is_false. intros Hn.
  unfold numeric_column in Hn. rewrite forallb_forall in Hn.
  specialize (Hn s). rewrite Hna, Hnum in Hn. simpl in Hn.
  assert (bool_decide (is_Some (@None Z)) = true) as Hb.
  { apply Hn, in_map_iff. by exists (Txt s). }
  apply bool_decide_eq_true in Hb. by destruct Hb.
Qed.

Lemma read_back_cell j r :
  r ∈ rows df →
  number_cells (column_cells df j) || text_cells (column_cells df j) = true →
  parse_field (numeric_column (column_fields j (lines (to_csv df))))
    (render_as (is_float df j) (cell_at r j)) = cell_at r j.
Proof.
  intros Hr Hk. rewrite column_fields_to_csv.
  pose proof (cell_in_column df r j Hr) as Hc. apply list_elem_of_In in Hc.
  apply orb_true_iff in Hk as [Hk|Hk].
  - apply parse_render_as.
    + intros _. by apply numeric_without_text.
    + intros s Hs. unfold number_cells in Hk. rewrite forallb_forall in Hk.
      specialize (Hk _ Hc). by rewrite Hs in Hk.
  - pose proof (text_not_numeric j Hk) as Hn.
    unfold text_cells in Hk. apply andb_true_iff in Hk as [Hk _].
    rewrite forallb_forall in Hk. specialize (Hk _ Hc).
    apply parse_render_as.
    + intros Hi. destruct (cell_at r j); try discriminate Hi. discriminate Hk.
    + intros s Hs. rewrite Hs in Hk. split; [done|]. by apply negb_true_iff.
Qed.

(** Writing a table whose columns are columns of numbers or columns of
    texts, and reading it, gives back its labels and its rows. *)
Lemma read_csv_to_csv :
  columns df ≠ [] →
  "" ∉ columns df →
  (∀ r, r ∈ rows df → length r = length (columns df)) →
  (∀ j, (j < length (columns df))%nat →
        number_cells (column_cells df j) || text_cells (column_cells df j) = true) →
  ∃ fl, read_csv (to_csv df) = Ok (typedFrame (columns df) (rows df) fl).
Proof.
  intros Hne Hlab Hwid Hkind.
  assert (imap column_label (columns df) = columns df) as Hlabels.
  { apply imap_fixed. intros i x Hx. apply column_label_named. intros ->.
    by apply Hlab, list_elem_of_lookup_2 with i. }
  assert (map (fun l =>
                 map (fun j =>
                        parse_field (numeric_column (column_fields j (lines (to_csv df))))
                                    (nth j l ""))
                     (seq 0 (length (columns df))))
              (lines (to_csv df)) = rows df) as Hrows.
  { unfold to_csv at 2. simpl. rewrite List.map_map.
    transitivity (map (fun r : list Cell => r) (rows df)); [|apply List.map_id].
    apply List.map_ext_in. intros r Hr. apply list_elem_of_In in Hr.
    transitivity (map (cell_at r) (seq 0 (length r))); [|apply cells_of_row].
    rewrite (Hwid r Hr).
    apply List.map_ext_in. intros j Hj. apply in_seq in Hj.
    rewrite nth_imap_render.
    apply (read_back_cell j r Hr). apply Hkind. lia. }
  unfold read_csv. change (header (to_csv df)) with (columns df).
  destruct (columns df) as [|c0 cs] eqn:Hcols; [done|].
  rewrite Hlabels, Hrows, <- Hcols. by eexists.
Qed.
End RoundTrip.

Lemma plain_recordsb_sound objs : plain_recordsb objs = true → plain_records objs.
Proof.
  unfold plain_recordsb. rewrite !andb_true_iff.
  intros [[He Hl] Hk]. split; [|split].
  - apply existsb_exists in He as (name & Hn & Hs). exists name.
    split; [by apply list_elem_of_In|done].
  - intros name H. rewrite forallb_forall in Hl. apply list_elem_of_In, Hl in H.
    apply andb_true_iff in H as [H1 H2]. by split; apply negb_true_iff.
  - intros j Hj. rewrite forallb_forall in Hk. apply Hk, in_seq. lia.
Qed.

Lemma json_table_width objs r :
  r ∈ rows (json_table objs) → length r = length (json_columns objs).
Proof.
  unfold json_table. simpl. intros Hr.
  apply list_elem_of_fmap in Hr as (o & -> & _). by rewrite length_map.
Qed.

Lemma cell_at_lookup (r : list Cell) j c : r !! j = Some c → cell_at r j = c.
Proof. intros H. unfold cell_at. by apply nth_lookup_Some with (d := NaN) in H. Qed.

(** A column of numbers or of texts is left as it is by the conversion
    that [read_json] tries. *)
Lemma to_number_kept cells c :
  number_cells cells || text_cells cells = true →
  c ∈ cells →
  (if forallb spells_number cells then to_number c else c) = c.
Proof.
  intros Hk Hc. apply list_elem_of_In in Hc.
  apply orb_true_iff in Hk as [Hk|Hk].
  - unfold number_cells in Hk. rewrite forallb_forall in Hk.
    specialize (Hk c Hc). destruct c; try done; by destruct (forallb _ _).
  - unfold text_cells in Hk. apply andb_true_iff in Hk as [_ Hk].
    apply existsb_exists in Hk as (c' & Hc' & Hs).
    destruct c' as [| |s]; try discriminate Hs.
    destruct (surely_text_reads_as_text s Hs) as (_ & _ & Hpy).
    destruct (forallb spells_number cells) eqn:Hf; [|done].
    rewrite forallb_forall in Hf. specialize (Hf _ Hc'). simpl in Hf.
    rewrite Hpy in Hf. apply bool_decide_eq_true in Hf. by destruct Hf.
Qed.

Lemma plain_column objs j :
  plain_records objs → (j < length (json_columns objs))%nat →
  number_cells (column_cells (json_table objs) j)
  || text_cells (column_cells (json_table objs) j) = true.
Proof.
  intros (_ & _ & Hk) Hj. specialize (Hk j Hj).
  apply orb_true_iff in Hk as [Hk|Hk]; apply orb_true_iff; [left|by right].
  by apply andb_true_iff in Hk as [Hk _].
Qed.

(** The table read from plain records holds their values as they are. *)
Lemma read_json_plain objs :
  plain_records objs →
  columns (read_json objs) = json_columns objs ∧
  rows (read_json objs) = rows (json_table objs).
Proof.
  intros Hp. split; [done|].
  unfold read_json. cbn [rows].
  transitivity (map (fun r : list Cell => r) (rows (json_table objs)));
    [|apply List.map_id].
  apply List.map_ext_in. intros r Hr. apply list_elem_of_In in Hr.
  apply imap_fixed. intros j c Hj.
  apply to_number_kept.
  - apply plain_column; [done|].
    rewrite <- (json_table_width objs r Hr). by apply lookup_lt_Some with c.
  - rewrite <- (cell_at_lookup r j c Hj). by apply cell_in_column.
Qed.

Lemma read_json_round_trip objs :
  plain_records objs →
  ∃ fl, read_csv (to_csv (read_json objs))
        = Ok (typedFrame (json_columns objs) (rows (json_table objs)) fl).
Proof.
  intros Hp. destruct (read_json_plain objs Hp) as [Hcols Hrows].
  destruct (read_csv_to_csv (read_json objs)) as [fl Hfl].
  - rewrite Hcols. destruct Hp as ((name & Hn & _) & _). intros H.
    rewrite H in Hn. by apply elem_of_nil in Hn.
  - rewrite Hcols. intros H. destruct Hp as (_ & Hl & _).
    by destruct (Hl "" H) as [Hna _].
  - intros r Hr. rewrite Hrows in Hr. rewrite Hcols. by apply json_table_width.
  - intros j Hj. rewrite Hcols in Hj.
    unfold column_cells. rewrite Hrows. by apply plain_column.
  - exists fl. by rewrite Hfl, Hcols, Hrows.
Qed.

Lemma extract_data_unfold w objs :
  files w !! "athlete_events_2006_2016.jsonl" = Some (JsonLines objs) →
  extract_data w =
  (Ok tt,
   set_files (<["extracted_data.csv" := CsvText (to_csv (read_json objs))]> (files w)) w).
Proof.
  intros Hf. unfold extract_data, read_json_file, to_csv_file, modify.
  unfold mbind, Run_bind. by rewrite Hf.
Qed.

(** A year that is missing in one record makes the year a column of
    floats: every year is written with its fraction. *)
Example float_year_extracted :
  extracted float_year_records
  = CsvText (mkCsv ["year"; "season"; "noc"; "medal"]
               [ ["2012.0"; "Summer"; "USA"; "Gold"];
                 ["2012.0"; "Summer"; "USA"; "Silver"];
                 [""; "Winter"; "GBR"; "Gold"] ]).
Proof. vm_compute. reflexivity. Qed.

(** A column whose texts all spell numbers is converted before it is
    written: a medal that is the text Nan is written as a missing one. *)
Example spelled_numbers_converted :
  extracted [ [("year", Txt "2012"); ("medal", Txt "Nan")];
              [("year", Txt "2016"); ("medal", Txt "nan")] ]
  = CsvText (mkCsv ["year"; "medal"] [ ["2012"; ""]; ["2016"; ""] ]).
Proof. vm_compute. reflexivity. Qed.





(** * The task chain *)

Lemma bind_run_ok {A B} (m : Run A) (k : A → Run B) w a w' :
  m w = (Ok a, w') → (m ≫= k) w = k a w'.
Proof. intros H. unfold mbind, Run_bind. by rewrite H. Qed.

Lemma bind_run_raise {A B} (m : Run A) (k : A → Run B) w e w' :
  m w = (Raise e, w') → (m ≫= k) w = (Raise e, w').
Proof. intros H. unfold mbind, Run_bind. by rewrite H. Qed.

Lemma end_of_attempt_same w w' :
  open_connections w' = open_connections w → end_of_attempt w w' = w'.
Proof. intros H. destruct w'. unfold end_of_attempt. simpl in *. by rewrite H. Qed.

Lemma run_task_ok n t w r w' :
  python_callable t w = (Ok r, w') →
  open_connections w' = open_connections w →
  run_task n t w = (Ok r, w').
Proof.
  intros H Hc. destruct n; simpl; rewrite H; by rewrite end_of_attempt_same.
Qed.

Lemma run_task_raise_same n t w e :
  python_callable t w = (Raise e, w) → run_task n t w = (Raise e, w).
Proof.
  intros H. induction n as [|n IH]; simpl; rewrite H;
    by rewrite end_of_attempt_same.
Qed.

Lemma read_csv_file_frame path w :
  read_csv_file path w = (read_frame path (files w !! path), w).
Proof. unfold read_csv_file, read_frame. by destruct (files w !! path) as [[|]|]. Qed.

Lemma extract_data_missing w :
  (∀ objs, files w !! "athlete_events_2006_2016.jsonl" ≠ Some (JsonLines objs)) →
  ∃ e, extract_data w = (Raise e, w).
Proof.
  intros Hf. unfold extract_data, read_json_file, mbind, Run_bind.
  destruct (files w !! "athlete_events_2006_2016.jsonl") as [[objs|f]|] eqn:H.
  - by destruct (Hf objs).
  - by eexists.
  - by eexists.
Qed.

Lemma transform_data_unfold w :
  transform_data w =
  match transform_files (files w !! "extracted_data.csv") with
  | Ok (mc, cc) =>
      (Ok tt,
       set_files (<["transformed_country_counts.csv" := CsvText cc]>
                    (<["transformed_medal_counts.csv" := CsvText mc]> (files w))) w)
  | Raise e => (Raise e, w)
  end.
Proof.
  unfold transform_data, transform_files.
  unfold mbind at 1, Run_bind at 1. rewrite read_csv_file_frame.
  destruct (read_frame "extracted_data.csv" (files w !! "extracted_data.csv"))
    as [df|e]; [|done].
  simpl. unfold lift, mbind, Run_bind.
  destruct (transform_frames df) as [[m c]|e]; [|done].
  simpl. unfold to_csv_file, modify. by destruct w.
Qed.

Section Chain.
Variable raises : StoreCall → bool.

Lemma loaded_store_idempotent m (db : gmap string SqlTable) :
  loaded_store raises m (loaded_store raises m db) = loaded_store raises m db.
Proof.
  unfold loaded_store.
  destruct (raises Connect); [done|].
  destruct (raises (Execute "MedalCounts")); [done|].
  destruct (raises (DropTable "MedalCounts")).
  { unfold create_if_absent at 1.
    destruct (create_if_absent_exists medal_counts_statement db) as [t Ht].
    by rewrite Ht. }
  destruct (raises (CreateTable "MedalCounts")); [apply delete_delete_eq|].
  destruct (raises (InsertRows "MedalCounts")); apply insert_insert_eq.
Qed.

(** The Loader as a task: tried and retried, it leaves the files alone
    and the store as one attempt leaves it. *)
Lemma load_task_run w mc cc :
  files w !! "transformed_medal_counts.csv" = Some (CsvText mc) →
  files w !! "transformed_country_counts.csv" = Some (CsvText cc) →
  ∃ e w',
    run_task (retries default_args) (load_task raises) w = (Raise e, w') ∧
    files w' = files w ∧
    store w' = store_after_load raises mc cc (store w) ∧
    open_connections w' = open_connections w.
Proof.
  intros Hmc Hcc. unfold store_after_load.
  assert (∀ v, files v = files w →
            read_csv_file "transformed_medal_counts.csv" v = (read_csv mc, v) ∧
            read_csv_file "transformed_country_counts.csv" v = (read_csv cc, v)) as Hread.
  { intros v Hv. rewrite !read_csv_file_frame, Hv, Hmc, Hcc. done. }
  destruct (read_csv mc) as [m|em] eqn:Hm.
  - destruct (read_csv cc) as [c|ec] eqn:Hc.
    + destruct (Hread w eq_refl) as [Hm1 Hc1].
      pose proof (load_data_unfold raises w m c Hm1 Hc1) as H1.
      set (w1 := mkWorld (files w) (loaded_store raises m (store w))
                   (open_connections w)).
      destruct (Hread w1 eq_refl) as [Hm2 Hc2].
      pose proof (load_data_unfold raises w1 m c Hm2 Hc2) as H2.
      do 2 eexists. split.
      { simpl. rewrite H1. unfold end_of_attempt at 1. simpl files. simpl store.
        fold w1. rewrite H2. reflexivity. }
      simpl. split; [done|]. split; [apply loaded_store_idempotent|done].
    + destruct (Hread w eq_refl) as [Hm1 Hc1].
      assert (load_data raises w = (Raise ec, w)) as H1.
      { unfold load_data. rewrite (bind_run_ok _ _ _ _ _ Hm1).
        by rewrite (bind_run_raise _ _ _ _ _ Hc1). }
      exists ec, w. split; [|done]. by apply run_task_raise_same.
  - destruct (Hread w eq_refl) as [Hm1 Hc1].
    assert (load_data raises w = (Raise em, w)) as H1.
    { unfold load_data. by rewrite (bind_run_raise _ _ _ _ _ Hm1). }
    exists em, w. split; [|done]. by apply run_task_raise_same.
Qed.

Lemma store_after_load_idempotent mc cc (db : gmap string SqlTable) :
  store_after_load raises mc cc (store_after_load raises mc cc db)
  = store_after_load raises mc cc db.
Proof.
  unfold store_after_load.
  destruct (read_csv mc); [|done]. destruct (read_csv cc); [|done].
  apply loaded_store_idempotent.
Qed.

Lemma pipeline_store_idempotent input (db : gmap string SqlTable) :
  pipeline_store raises input (pipeline_store raises input db)
  = pipeline_store raises input db.
Proof.
  unfold pipeline_store. destruct input as [[objs|f]|]; try done.
  destruct (transform_files _) as [[mc cc]|e]; [|done].
  apply store_after_load_idempotent.
Qed.

(** One run of the chain: the input file is left as it is, and the store
    is [pipeline_store] of the input and of the store before. *)
Lemma etl_pipeline_effect w :
  files (snd (etl_pipeline raises w)) !! "athlete_events_2006_2016.jsonl"
    = files w !! "athlete_events_2006_2016.jsonl" ∧
  store (snd (etl_pipeline raises w))
    = pipeline_store raises (files w !! "athlete_events_2006_2016.jsonl") (store w).
Proof.
  unfold etl_pipeline, run_chain.
  destruct (files w !! "athlete_events_2006_2016.jsonl") as [[objs|f]|] eqn:Hin.
  - pose proof (extract_data_unfold w objs Hin) as He.
    set (we := set_files _ w) in He.
    rewrite (bind_run_ok _ _ _ _ _ (run_task_ok _ extract_task _ _ _ He eq_refl)).
    pose proof (transform_data_unfold we) as Ht.
    assert (files we !! "extracted_data.csv"
            = Some (CsvText (to_csv (read_json objs)))) as Hex
      by apply lookup_insert_eq.
    rewrite Hex in Ht. unfold pipeline_store.
    destruct (transform_files _) as [[mc cc]|e].
    + set (wt := set_files _ we) in Ht.
      rewrite (bind_run_ok _ _ _ _ _ (run_task_ok _ transform_task _ _ _ Ht eq_refl)).
      destruct (load_task_run wt mc cc) as (e & wl & Hl & Hfl & Hsl & _).
      { unfold wt. simpl. by rewrite lookup_insert_ne, lookup_insert_eq. }
      { unfold wt. simpl. by rewrite lookup_insert_eq. }
      rewrite (bind_run_raise _ _ _ _ _ Hl). simpl.
      rewrite Hfl, Hsl. split; [|done].
      unfold wt, we. simpl. by rewrite !lookup_insert_ne.
    + rewrite (bind_run_raise _ _ _ _ _ (run_task_raise_same _ transform_task _ _ Ht)).
      simpl. split; [|done]. by rewrite lookup_insert_ne.
  - destruct (extract_data_missing w) as [e He]; [by rewrite Hin|].
    rewrite (bind_run_raise _ _ _ _ _ (run_task_raise_same _ extract_task _ _ He)).
    done.
  - destruct (extract_data_missing w) as [e He]; [by rewrite Hin|].
    rewrite (bind_run_raise _ _ _ _ _ (run_task_raise_same _ extract_task _ _ He)).
    done.
Qed.

(** C5.  Running the chain twice on the same input leaves the store as
    running it once does: what a run writes replaces what the table held. *)
Theorem etl_pipeline_idempotent (w : World) :
  store (snd (etl_pipeline raises (snd (etl_pipeline raises w))))
  = store (snd (etl_pipeline raises w)).
Proof.
  destruct (etl_pipeline_effect (snd (etl_pipeline raises w))) as [_ H2].
  destruct (etl_pipeline_effect w) as [Hf H1].
  rewrite H2, Hf, H1. apply pipeline_store_idempotent.
Qed.
End Chain.


(** * The scenario of the specification *)

(** C8.  On the three records (2012, Summer, USA, Gold), (2012, Summer,
    USA, Silver) and (2012, Summer, GBR, no medal), the Transformer returns
    the MedalCount table of the single row (2012, Summer, USA, 2) and the
    CountryCount table of the single row (2012, Summer, 1); starting from
    the three records in the input file, these are the rows that the
    Extractor and the Transformer leave in the two aggregate files. *)
Theorem scenario_aggregates :
  (∃ medal_counts country_counts,
     transform_frames scenario_table = Ok (medal_counts, country_counts) ∧
     rows medal_counts = [ [Int 2012; Txt "Summer"; Txt "USA"; Int 2] ] ∧
     rows country_counts = [ [Int 2012; Txt "Summer"; Int 1] ]) ∧
  (∃ w1 w2,
     extract_data scenario_world = (Ok tt, w1) ∧
     transform_data w1 = (Ok tt, w2) ∧
     files w2 !! "transformed_medal_counts.csv" =
       Some (CsvText (mkCsv ["year"; "season"; "noc"; "Medal_Count"]
                        [ ["2012"; "Summer"; "USA"; "2"] ])) ∧
     files w2 !! "transformed_country_counts.csv" =
       Some (CsvText (mkCsv ["year"; "season"; "Countries_with_Medals"]
                        [ ["2012"; "Summer"; "1"] ]))).
Proof.
  split.
  - do 2 eexists. split; [vm_compute; reflexivity|]. split; reflexivity.
  - exists (snd (extract_data scenario_world)).
    exists (snd (transform_data (snd (extract_data scenario_world)))).
    repeat split; vm_compute; reflexivity.
Qed.

(** One run and two runs of the chain on the scenario leave the same
    MedalCounts rows, and no CountryCounts table. *)
Example scenario_two_runs :
  let once := snd (etl_pipeline no_faults scenario_world) in
  let twice := snd (etl_pipeline no_faults once) in
  contents once "MedalCounts" = Some [ [Int 2012; Txt "Summer"; Txt "USA"; Int 2] ] ∧
  contents twice "MedalCounts" = contents once "MedalCounts" ∧
  contents once "CountryCounts" = None ∧
  contents twice "CountryCounts" = None.
Proof. vm_compute. repeat split; reflexivity. Qed.


(** * Further properties of the Transformer *)

Lemma filter_none {A} (p : A → bool) (l : list A) :
  (∀ x, x ∈ l → p x = false) → List.filter p l = [].
Proof.
  induction l as [|x l IH]; intros H; [done|]. simpl.
  rewrite (H x) by (by left). apply IH. intros y Hy. apply H. by right.
Qed.

Lemma df_filtered_rows_none df :
  (∀ r, r ∈ rows df → medal_present df r = false) → df_filtered_rows df = [].
Proof.
  intros H. unfold df_filtered_rows. apply filter_none.
  intros r' Hr'. apply list_elem_of_fmap in Hr' as (r & -> & Hr).
  specialize (H r Hr). unfold medal_present in H.
  unfold all_present, take_cells, record4, cell_at. simpl. by rewrite H.
Qed.

(** X1.  A table in which no record has a medal gives two empty aggregate
    tables, with their columns, and no error. *)
Theorem transform_frames_no_medals (df : DataFrame) :
  has_columns four df →
  (∀ r, r ∈ rows df → medal_present df r = false) →
  transform_frames df = Ok (empty_medal_counts, empty_country_counts).
Proof.
  intros Hc Hm. rewrite (transform_frames_unfold df Hc).
  unfold groups3, groups2. rewrite (df_filtered_rows_none df Hm). reflexivity.
Qed.

Lemma transform_frames_no_medals_witness :
  transform_frames no_medal_table = Ok (empty_medal_counts, empty_country_counts).
Proof.
  refine (transform_frames_no_medals no_medal_table _ _).
  - intros n Hn. exact Hn.
  - intros r Hr. repeat (apply elem_of_cons in Hr as [->|Hr]; [reflexivity|]).
    by apply elem_of_nil in Hr.
Defined.

Lemma zsum_add {A} (f g : A → Z) (l : list A) :
  foldr Z.add 0%Z (map (fun x => (f x + g x)%Z) l)
  = (foldr Z.add 0%Z (map f l) + foldr Z.add 0%Z (map g l))%Z.
Proof. induction l as [|x l IH]; simpl; lia. Qed.

Lemma zsum_indicator (ks : list (list Cell)) (k0 : list Cell) :
  NoDup ks →
  foldr Z.add 0%Z (map (fun k => if bool_decide (k0 = k) then 1%Z else 0%Z) ks)
  = if bool_decide (k0 ∈ ks) then 1%Z else 0%Z.
Proof.
  induction 1 as [|k ks Hk Hks IH]; [done|]. simpl. rewrite IH.
  destruct (decide (k0 = k)) as [->|Hne].
  - rewrite (bool_decide_eq_true_2 (k = k)) by done.
    rewrite (bool_decide_eq_false_2 (k ∈ ks)) by done.
    by rewrite bool_decide_eq_true_2 by (by left).
  - rewrite (bool_decide_eq_false_2 (k0 = k)) by done.
    destruct (decide (k0 ∈ ks)) as [Hin|Hin].
    + rewrite !bool_decide_eq_true_2; [done | by right | done].
    + rewrite !bool_decide_eq_false_2; [done | | done].
      intros [?|?]%elem_of_cons; done.
Qed.

Lemma zsum_zero {A} (f : A → Z) (l : list A) :
  (∀ x, f x = 0%Z) → foldr Z.add 0%Z (map f l) = 0%Z.
Proof. intros H. induction l as [|x l IH]; simpl; [done|]. rewrite H, IH. done. Qed.

(** The groups split the grouped rows: their sizes add up to the number of
    grouped rows. *)
Lemma partition_sum (key : list Cell → list Cell) (l : list (list Cell))
    (ks : list (list Cell)) :
  NoDup ks →
  (∀ r, r ∈ l → key r ∈ ks) →
  foldr Z.add 0%Z
    (map (fun k => Z.of_nat (length (List.filter (fun r => bool_decide (key r = k)) l))) ks)
  = Z.of_nat (length l).
Proof.
  intros Hnd. induction l as [|r l IH]; intros Hin.
  - by apply zsum_zero.
  - rewrite (map_ext _
      (fun k => ((if bool_decide (key r = k) then 1 else 0)
                 + Z.of_nat (length (List.filter (fun r => bool_decide (key r = k)) l)))%Z)).
    2:{ intros k. simpl. case_bool_decide; simpl; lia. }
    rewrite zsum_add, zsum_indicator by done.
    rewrite IH by (intros r' Hr'; apply Hin; by right).
    rewrite bool_decide_eq_true_2 by (apply Hin; by left).
    simpl length. lia.
Qed.

Lemma members_sum g :
  foldr Z.add 0%Z (map (fun k => Z.of_nat (length (members g k))) (group_keys g))
  = Z.of_nat (length (grouped g)).
Proof.
  unfold members. apply partition_sum; [apply NoDup_group_keys|].
  intros r Hr. apply elem_of_group_keys. by exists r.
Qed.

Lemma last_cell_of_row (k : list Cell) (c : Cell) :
  cell_at (k ++ [c]) (length k) = c.
Proof. unfold cell_at. by rewrite app_nth2, Nat.sub_diag by lia. Qed.

Lemma medal_total_size df :
  medal_total (reset_index "Medal_Count" (size (groups3 df)))
  = Z.of_nat (length (grouped (groups3 df))).
Proof.
  rewrite <- members_sum. unfold medal_total, reset_index, size. simpl.
  rewrite !List.map_map. f_equal. apply List.map_ext_in. intros k Hk. simpl.
  apply list_elem_of_In, group_key_length in Hk. simpl in Hk.
  rewrite <- Hk. by rewrite last_cell_of_row.
Qed.

Lemma grouped3_length df :
  length (grouped (groups3 df)) = length (counted_records df).
Proof.
  unfold groups3, df_filtered_rows, counted_records. simpl.
  rewrite filter_filter_andb, length_filter_map. f_equal.
  apply List.filter_ext. intros r.
  unfold medal_present, key3, all_present, take_cells, record4, cell_at. simpl.
  by rewrite !andb_true_r.
Qed.

(** X2.  The counts of the MedalCount table add up to the number of
    medal-present records that have a year, a season and a country: every
    such record is counted in exactly one row, and nothing else is. *)
Theorem medal_counts_total (df : DataFrame) :
  has_columns four df →
  ∃ medal_counts country_counts,
    transform_frames df = Ok (medal_counts, country_counts) ∧
    medal_total medal_counts = Z.of_nat (length (counted_records df)).
Proof.
  intros Hc. do 2 eexists. split; [by apply transform_frames_unfold|].
  by rewrite medal_total_size, grouped3_length.
Qed.

Lemma medal_counts_total_witness :
  ∃ medal_counts country_counts,
    transform_frames scenario_table = Ok (medal_counts, country_counts) ∧
    medal_total medal_counts = 2%Z.
Proof.
  refine (medal_counts_total scenario_table _).
  intros n Hn. exact Hn.
Defined.

(** X3.  No row of the MedalCount table holds a zero: a key is listed only
    with a count of at least one. *)
Theorem medal_counts_positive (df : DataFrame) :
  has_columns four df →
  ∃ medal_counts country_counts,
    transform_frames df = Ok (medal_counts, country_counts) ∧
    ∀ row, row ∈ rows medal_counts →
      ∃ y s n c, row = [y; s; n; Int c] ∧ (1 ≤ c)%Z.
Proof.
  intros Hc. do 2 eexists. split; [by apply transform_frames_unfold|].
  intros row Hrow.
  apply medal_counts_rows in Hrow as (y & s & n & _ & (r & Hr) & ->).
  exists y, s, n. eexists. split; [reflexivity|].
  destruct (medal_records df (key3 df) [y; s; n]); [by apply elem_of_nil in Hr|].
  simpl. lia.
Qed.

Lemma medal_counts_positive_witness :
  ∃ medal_counts country_counts,
    transform_frames scenario_table = Ok (medal_counts, country_counts) ∧
    ∀ row, row ∈ rows medal_counts →
      ∃ y s n c, row = [y; s; n; Int c] ∧ (1 ≤ c)%Z.
Proof.
  refine (medal_counts_positive scenario_table _).
  intros n Hn. exact Hn.
Defined.

(** X4.  A CountryCount row can hold a zero: the value of a (year, season)
    is zero exactly when every medal-present record of that (year, season)
    names no country. *)
Theorem country_count_zero (df : DataFrame) :
  has_columns four df →
  ∃ medal_counts country_counts,
    transform_frames df = Ok (medal_counts, country_counts) ∧
    ∀ y s v, [y; s; Int v] ∈ rows country_counts →
      (0 ≤ v)%Z ∧
      (v = 0%Z ↔ ∀ r, r ∈ medal_records df (key2 df) [y; s] → field df "noc" r = NaN).
Proof.
  intros Hc. do 2 eexists. split; [by apply transform_frames_unfold|].
  intros y s v Hrow.
  apply country_counts_rows in Hrow as (y' & s' & m & _ & _ & Hm & Heq).
  injection Heq as <- <- ->. split; [lia|].
  destruct Hm as (l & Hnd & Hl & <-). split.
  - intros Hz r Hr. destruct l as [|x l]; [|simpl in Hz; lia].
    destruct (field df "noc" r) eqn:Hf; [done| |].
    + assert (Int z ∈ @nil Cell) as Hin; [|by apply elem_of_nil in Hin].
      apply Hl. split; [done|]. by exists r.
    + assert (Txt s0 ∈ @nil Cell) as Hin; [|by apply elem_of_nil in Hin].
      apply Hl. split; [done|]. by exists r.
  - intros Hall. destruct l as [|x l]; [done|].
    assert (countries_of df [y; s] x) as (Hx & r & Hr & Hf) by (apply Hl; by left).
    rewrite (Hall r Hr) in Hf. subst x. discriminate Hx.
Qed.

Lemma country_count_zero_witness :
  transform_frames stateless_medal_table =
    Ok (empty_medal_counts,
        mkDataFrame ["year"; "season"; "Countries_with_Medals"]
          [ [Int 2012; Txt "Summer"; Int 0] ]) ∧
  ∃ medal_counts country_counts,
    transform_frames stateless_medal_table = Ok (medal_counts, country_counts) ∧
    ∀ y s v, [y; s; Int v] ∈ rows country_counts →
      (0 ≤ v)%Z ∧
      (v = 0%Z ↔ ∀ r, r ∈ medal_records stateless_medal_table
                           (key2 stateless_medal_table) [y; s] →
                 field stateless_medal_table "noc" r = NaN).
Proof.
  split.
  - vm_compute. reflexivity.
  - refine (country_count_zero stateless_medal_table _).
    intros n Hn. exact Hn.
Defined.

(** ** The order of the groups *)

Lemma string_leb_trans s1 s2 s3 :
  String.leb s1 s2 = true → String.leb s2 s3 = true → String.leb s1 s3 = true.
Proof.
  unfold String.leb. revert s2 s3.
  induction s1 as [|a s1 IH]; intros [|b s2] [|c s3]; simpl; try done.
  unfold Ascii.compare.
  destruct (N.compare_spec (N_of_ascii a) (N_of_ascii b)) as [Hab|Hab|Hab];
    destruct (N.compare_spec (N_of_ascii b) (N_of_ascii c)) as [Hbc|Hbc|Hbc];
    destruct (N.compare_spec (N_of_ascii a) (N_of_ascii c)) as [Hac|Hac|Hac];
    try done; try lia.
  apply IH.
Qed.

Lemma cell_leb_total a b : cell_leb a b = true ∨ cell_leb b a = true.
Proof.
  destruct a as [|x|s], b as [|y|t]; simpl; auto.
  - destruct (Z.leb_spec x y); [by left|right]. apply Z.leb_le. lia.
  - apply String.leb_total.
Qed.

Lemma cell_leb_antisym a b : cell_leb a b = true → cell_leb b a = true → a = b.
Proof.
  destruct a as [|x|s], b as [|y|t]; simpl; try done.
  - intros H1%Z.leb_le H2%Z.leb_le. f_equal. lia.
  - intros H1 H2. f_equal. by apply String.leb_antisym.
Qed.

Lemma cell_leb_trans a b c :
  cell_leb a b = true → cell_leb b c = true → cell_leb a c = true.
Proof.
  destruct a as [|x|s], b as [|y|t], c as [|z|u]; simpl; try done.
  - intros H1%Z.leb_le H2%Z.leb_le. apply Z.leb_le. lia.
  - apply string_leb_trans.
Qed.

#[export] Instance key_le_total : Total key_le.
Proof.
  intros k1. unfold key_le.
  induction k1 as [|a k1 IH]; intros [|b k2]; simpl; auto.
  destruct (decide (a = b)) as [->|Hne].
  - rewrite decide_True by done. apply IH.
  - rewrite decide_False by (by intros ->). apply cell_leb_total.
Qed.

#[export] Instance key_le_antisym : AntiSymm (=) key_le.
Proof.
  intros k1. unfold key_le.
  induction k1 as [|a k1 IH]; intros [|b k2]; simpl; try done.
  destruct (decide (a = b)) as [->|Hne].
  - rewrite decide_True by done. intros H1 H2. f_equal. by apply IH.
  - rewrite decide_False by (by intros ->). intros H1 H2.
    destruct Hne. by apply cell_leb_antisym.
Qed.

#[export] Instance key_le_trans : Transitive key_le.
Proof.
  intros k1. unfold key_le.
  induction k1 as [|a k1 IH]; intros [|b k2] [|c k3]; simpl; try done.
  destruct (decide (a = b)) as [->|Hab].
  - destruct (decide (b = c)) as [->|Hbc]; [apply IH | done].
  - destruct (decide (b = c)) as [->|Hbc].
    + by rewrite decide_False by done.
    + intros H1 H2. destruct (decide (a = c)) as [->|Hac].
      * destruct Hab. by apply cell_leb_antisym.
      * by apply cell_leb_trans with b.
Qed.

Lemma filter_Permutation {A} (p : A → bool) (l l' : list A) :
  l ≡ₚ l' → List.filter p l ≡ₚ List.filter p l'.
Proof.
  induction 1 as [|x l l' _ IH|x y l|l1 l2 l3 _ IH1 _ IH2]; simpl.
  - done.
  - destruct (p x); [by constructor | done].
  - destruct (p x), (p y); try done. apply perm_swap.
  - by etrans.
Qed.

Lemma remove_dups_Permutation (l l' : list Cell) :
  l ≡ₚ l' → remove_dups l ≡ₚ remove_dups l'.
Proof.
  intros H. apply NoDup_Permutation; try apply NoDup_remove_dups.
  intros x. by rewrite !elem_of_remove_dups, H.
Qed.

Lemma merge_sort_keys_Permutation (ks ks' : list (list Cell)) :
  ks ≡ₚ ks' → merge_sort key_le ks = merge_sort key_le ks'.
Proof.
  intros H. apply (Sorted_unique key_le); try apply Sorted_merge_sort; try apply _.
  by rewrite !merge_sort_Permutation.
Qed.

Section Reordering.
Variables g g' : GroupBy.
Hypothesis same_labels : by_labels g = by_labels g'.
Hypothesis same_index : by_index g = by_index g'.
Hypothesis same_rows : grouped g ≡ₚ grouped g'.

Lemma group_keys_reordered : group_keys g = group_keys g'.
Proof.
  unfold group_keys. rewrite same_index. apply merge_sort_keys_Permutation.
  apply NoDup_Permutation; try apply NoDup_remove_dups.
  intros k. rewrite !elem_of_remove_dups. by rewrite same_rows.
Qed.

Lemma members_reordered k : members g k ≡ₚ members g' k.
Proof. unfold members. rewrite same_index. by apply filter_Permutation. Qed.

Lemma size_reordered : size g = size g'.
Proof.
  unfold size. rewrite same_labels, group_keys_reordered. f_equal.
  apply List.map_ext. intros k. by rewrite (members_reordered k).
Qed.

Lemma nunique_reordered col :
  nunique (mkSeriesGroupBy g col) = nunique (mkSeriesGroupBy g' col).
Proof.
  unfold nunique, values_in. simpl.
  rewrite same_labels, group_keys_reordered. f_equal.
  apply List.map_ext. intros k. do 2 f_equal.
  apply Permutation_length, remove_dups_Permutation, filter_Permutation.
  apply Permutation_map, members_reordered.
Qed.
End Reordering.

(** X5.  The order of the records does not matter: two tables with the
    same columns and the same records in another order give the same two
    aggregate tables, row for row, or stop at the same error. *)
Theorem transform_frames_row_order (df df' : DataFrame) :
  columns df = columns df' →
  rows df ≡ₚ rows df' →
  transform_frames df = transform_frames df'.
Proof.
  intros Hcols Hrows. unfold transform_frames, getitem. rewrite <- Hcols.
  destruct (locate ["year"; "season"; "noc"; "medal"] (columns df)) as [ixs|e];
    [|done].
  simpl. do 2 f_equal.
  - f_equal. apply size_reordered; try done. simpl.
    by do 2 apply filter_Permutation; apply Permutation_map.
  - f_equal. apply nunique_reordered; try done. simpl.
    by do 2 apply filter_Permutation; apply Permutation_map.
Qed.

Lemma transform_frames_row_order_witness :
  transform_frames scenario_table = transform_frames scenario_table_reordered.
Proof.
  refine (transform_frames_row_order scenario_table scenario_table_reordered _ _).
  - reflexivity.
  - simpl. etrans; [apply perm_skip, perm_swap|].
    etrans; [apply perm_swap|]. apply perm_skip, perm_swap.
Defined.

Lemma keys_of_size name g :
  map (take (length (by_index g))) (rows (reset_index name (size g))) = group_keys g.
Proof.
  rewrite (keys_of_reset_index name (size g) (length (by_index g))).
  - unfold size. simpl. rewrite List.map_map. simpl. apply List.map_id.
  - intros e He. unfold size in He. simpl in He.
    apply list_elem_of_fmap in He as (k & -> & Hk). simpl.
    by apply group_key_length.
Qed.

Lemma keys_of_nunique name sg :
  map (take (length (by_index (of_groups sg)))) (rows (reset_index name (nunique sg)))
  = group_keys (of_groups sg).
Proof.
  rewrite (keys_of_reset_index name (nunique sg) (length (by_index (of_groups sg)))).
  - unfold nunique. simpl. rewrite List.map_map. simpl. apply List.map_id.
  - intros e He. unfold nunique in He. simpl in He.
    apply list_elem_of_fmap in He as (k & -> & Hk). simpl.
    by apply group_key_length.
Qed.

Lemma string_leb_ltb s t : String.leb s t = true → s ≠ t → String.ltb s t = true.
Proof.
  unfold String.leb, String.ltb. intros Hle Hne.
  destruct (String.compare s t) eqn:Hc; try done.
  by apply String.compare_eq_iff in Hc.
Qed.

Lemma key_le_country_before y1 s1 n1 y2 s2 n2 :
  key_le [Int y1; Txt s1; Txt n1] [Int y2; Txt s2; Txt n2] →
  [Int y1; Txt s1; Txt n1] ≠ [Int y2; Txt s2; Txt n2] →
  country_before y1 s1 n1 y2 s2 n2.
Proof.
  unfold key_le, country_before, season_before. simpl. intros Hle Hne.
  destruct (decide (Int y1 = Int y2)) as [[= ->]|Hy].
  - destruct (decide (Txt s1 = Txt s2)) as [[= ->]|Hs].
    + right. repeat split. destruct (decide (Txt n1 = Txt n2)) as [[= ->]|Hn]; [done|].
      apply string_leb_ltb; [done|]. by intros ->.
    + left. right. split; [done|]. apply string_leb_ltb; [done|]. by intros ->.
  - left. left. apply Z.leb_le in Hle.
    assert (y1 ≠ y2) by (by intros ->). lia.
Qed.

Lemma key_le_season_before y1 s1 y2 s2 :
  key_le [Int y1; Txt s1] [Int y2; Txt s2] →
  [Int y1; Txt s1] ≠ [Int y2; Txt s2] →
  season_before y1 s1 y2 s2.
Proof.
  unfold key_le, season_before. simpl. intros Hle Hne.
  destruct (decide (Int y1 = Int y2)) as [[= ->]|Hy].
  - right. split; [done|].
    destruct (decide (Txt s1 = Txt s2)) as [[= ->]|Hs]; [done|].
    apply string_leb_ltb; [done|]. by intros ->.
  - left. apply Z.leb_le in Hle.
    assert (y1 ≠ y2) by (by intros ->). lia.
Qed.

(** In a list sorted without repetition, an element that comes before
    another is below it and differs from it. *)
Lemma sorted_lookup (l : list (list Cell)) i j k1 k2 :
  StronglySorted key_le l → NoDup l → (i < j)%nat →
  l !! i = Some k1 → l !! j = Some k2 →
  key_le k1 k2 ∧ k1 ≠ k2.
Proof.
  intros Hs Hn Hij Hi Hj. split.
  - rewrite <- (take_drop j l) in Hs.
    apply (StronglySorted_app_1_elem_of _ _ _ k1 k2 Hs).
    + apply list_elem_of_lookup. exists i. by rewrite lookup_take_lt.
    + apply list_elem_of_lookup. exists 0%nat. rewrite lookup_drop.
      by rewrite Nat.add_0_r.
  - intros ->. pose proof (NoDup_lookup l i j k2 Hn Hi Hj). lia.
Qed.

Lemma group_keys_sorted g : StronglySorted key_le (group_keys g).
Proof. unfold group_keys. apply StronglySorted_merge_sort; apply _. Qed.

Lemma lookup_take_row (l : list (list Cell)) n i row :
  l !! i = Some row → map (take n) l !! i = Some (take n row).
Proof.
  intros H. change (map (take n) l) with (take n <$> l).
  by rewrite list_lookup_fmap, H.
Qed.

(** X6.  The rows of both aggregate tables come in ascending order of
    their keys and no key comes twice: of two rows of MedalCount, the one
    written first has the earlier year, or the same year and the season
    that comes first character by character, or the same year and season
    and the country that comes first; likewise for CountryCount by year
    and season.  The order of the records in the input plays no part. *)
Theorem aggregates_sorted (df : DataFrame) :
  has_columns four df →
  ∃ medal_counts country_counts,
    transform_frames df = Ok (medal_counts, country_counts) ∧
    (∀ i j y1 s1 n1 c1 y2 s2 n2 c2,
       (i < j)%nat →
       rows medal_counts !! i = Some [Int y1; Txt s1; Txt n1; c1] →
       rows medal_counts !! j = Some [Int y2; Txt s2; Txt n2; c2] →
       country_before y1 s1 n1 y2 s2 n2) ∧
    (∀ i j y1 s1 c1 y2 s2 c2,
       (i < j)%nat →
       rows country_counts !! i = Some [Int y1; Txt s1; c1] →
       rows country_counts !! j = Some [Int y2; Txt s2; c2] →
       season_before y1 s1 y2 s2).
Proof.
  intros Hc. do 2 eexists. split; [by apply transform_frames_unfold|]. split.
  - intros i j y1 s1 n1 c1 y2 s2 n2 c2 Hij Hi Hj.
    pose proof (keys_of_size "Medal_Count" (groups3 df)) as Hk.
    change (length (by_index (groups3 df))) with 3%nat in Hk.
    apply (lookup_take_row _ 3) in Hi, Hj.
    rewrite Hk in Hi, Hj. simpl in Hi, Hj.
    destruct (sorted_lookup _ i j _ _ (group_keys_sorted _) (NoDup_group_keys _)
                Hij Hi Hj) as [Hle Hne].
    by apply key_le_country_before.
  - intros i j y1 s1 c1 y2 s2 c2 Hij Hi Hj.
    pose proof (keys_of_nunique "Countries_with_Medals"
                  (mkSeriesGroupBy (groups2 df) 2)) as Hk.
    change (length (by_index (of_groups (mkSeriesGroupBy (groups2 df) 2))))
      with 2%nat in Hk.
    apply (lookup_take_row _ 2) in Hi, Hj.
    rewrite Hk in Hi, Hj. simpl in Hi, Hj.
    destruct (sorted_lookup _ i j _ _ (group_keys_sorted _) (NoDup_group_keys _)
                Hij Hi Hj) as [Hle Hne].
    by apply key_le_season_before.
Qed.

(** The two aggregate tables of records given in no order. *)
Example unsorted_table_aggregates :
  transform_frames unsorted_table
  = Ok (mkDataFrame ["year"; "season"; "noc"; "Medal_Count"]
          [ [Int 2008; Txt "Summer"; Txt "USA"; Int 1];
            [Int 2014; Txt "Winter"; Txt "CAN"; Int 1];
            [Int 2014; Txt "Winter"; Txt "NOR"; Int 1];
            [Int 2016; Txt "Summer"; Txt "CHN"; Int 1];
            [Int 2016; Txt "Summer"; Txt "USA"; Int 2] ],
        mkDataFrame ["year"; "season"; "Countries_with_Medals"]
          [ [Int 2008; Txt "Summer"; Int 1];
            [Int 2014; Txt "Winter"; Int 2];
            [Int 2016; Txt "Summer"; Int 2] ]).
Proof. vm_compute. reflexivity. Qed.

Lemma aggregates_sorted_witness :
  has_columns four unsorted_table ∧
  ∃ medal_counts country_counts,
    transform_frames unsorted_table = Ok (medal_counts, country_counts) ∧
    (∀ i j y1 s1 n1 c1 y2 s2 n2 c2,
       (i < j)%nat →
       rows medal_counts !! i = Some [Int y1; Txt s1; Txt n1; c1] →
       rows medal_counts !! j = Some [Int y2; Txt s2; Txt n2; c2] →
       country_before y1 s1 n1 y2 s2 n2) ∧
    (∀ i j y1 s1 c1 y2 s2 c2,
       (i < j)%nat →
       rows country_counts !! i = Some [Int y1; Txt s1; c1] →
       rows country_counts !! j = Some [Int y2; Txt s2; c2] →
       season_before y1 s1 y2 s2).
Proof.
  split; [intros n Hn; exact Hn|].
  refine (aggregates_sorted unsorted_table _).
  intros n Hn. exact Hn.
Defined.

Lemma index_of_None name cols : name ∉ cols → index_of name cols = None.
Proof.
  induction cols as [|c cols IH]; intros Hn; [done|]. simpl.
  destruct (String.eqb_spec c name) as [->|Hne].
  - destruct Hn. by left.
  - rewrite IH; [done|]. intros Hin. apply Hn. by right.
Qed.

Lemma locate_missing names cols name :
  name ∈ names → name ∉ cols →
  ∃ n, n ∈ names ∧ (n ∉ cols) ∧ locate names cols = Raise (KeyError n).
Proof.
  induction names as [|n names IH]; intros Hin Hn; [by apply elem_of_nil in Hin|].
  simpl. destruct (decide (n ∈ cols)) as [Hc|Hc].
  - destruct (index_of_elem n cols Hc) as [i ->].
    apply elem_of_cons in Hin as [->|Hin]; [done|].
    destruct (IH Hin Hn) as (m & Hm & Hmc & ->).
    exists m. split; [by right|]. by split.
  - rewrite (index_of_None n cols Hc). exists n. split; [by left|]. by split.
Qed.

(** X7.  When the extracted table lacks one of the four columns, the
    Transformer stops with a [KeyError] that names a missing column, and
    writes neither aggregate file. *)
Theorem transform_data_missing_column (w : World) (f : CsvFile) (df : DataFrame)
    (name : string) :
  files w !! "extracted_data.csv" = Some (CsvText f) →
  read_csv f = Ok df →
  name ∈ four → name ∉ columns df →
  ∃ n, n ∈ four ∧ (n ∉ columns df) ∧
       transform_data w = (Raise (KeyError n), w).
Proof.
  intros Hf Hr Hin Hn.
  destruct (locate_missing four (columns df) name Hin Hn) as (n & Hn4 & Hnc & Hl).
  exists n. split; [done|]. split; [done|].
  unfold transform_data, read_csv_file, mbind, Run_bind. rewrite Hf, Hr.
  unfold lift, transform_frames, getitem. unfold four in Hl. by rewrite Hl.
Qed.

Lemma transform_data_missing_column_witness :
  ∃ n, n ∈ four ∧ (n ∉ ["year"; "season"; "noc"]) ∧
       transform_data medal_less_world = (Raise (KeyError n), medal_less_world).
Proof.
  refine (transform_data_missing_column medal_less_world
            (mkCsv ["year"; "season"; "noc"] [ ["2012"; "Summer"; "USA"] ])
            (mkDataFrame ["year"; "season"; "noc"] [ [Int 2012; Txt "Summer"; Txt "USA"] ])
            "medal" _ _ _ _).
  - reflexivity.
  - vm_compute. reflexivity.
  - apply list_elem_of_In. simpl. tauto.
  - intros H. apply list_elem_of_In in H. simpl in H. intuition discriminate.
Defined.


(** * Further properties of the stages and of the chain *)



Section LoaderFrame.
Variable raises : StoreCall → bool.

Lemma create_if_absent_other q (db : gmap string SqlTable) table :
  table ≠ ct_table q → create_if_absent q db !! table = db !! table.
Proof.
  intros Hne. unfold create_if_absent. destruct (db !! ct_table q); [done|].
  by rewrite lookup_insert_ne.
Qed.

Lemma loaded_store_other m (db : gmap string SqlTable) table :
  table ≠ "MedalCounts" → loaded_store raises m db !! table = db !! table.
Proof.
  intros Hne. unfold loaded_store.
  destruct (raises Connect); [done|].
  destruct (raises (Execute "MedalCounts")); [done|].
  destruct (raises (DropTable "MedalCounts")).
  { by apply (create_if_absent_other medal_counts_statement). }
  destruct (raises (CreateTable "MedalCounts")); [by rewrite lookup_delete_ne|].
  destruct (raises (InsertRows "MedalCounts")); by rewrite lookup_insert_ne.
Qed.

(** X10.  Whatever the store answers, the Loader changes no file and no
    table other than MedalCounts. *)
Theorem load_data_frame (w : World) :
  files (snd (load_data raises w)) = files w ∧
  ∀ table, table ≠ "MedalCounts" →
    store (snd (load_data raises w)) !! table = store w !! table.
Proof.
  destruct (load_data_cases raises w) as [[e He]|(m & c & _ & _ & Hl)].
  - by rewrite He.
  - rewrite Hl. simpl. split; [done|]. intros table Hne.
    by apply loaded_store_other.
Qed.

(** X11.  Running the Loader again on the same files leaves the store as
    the first run left it: what it writes replaces, and does not add to,
    what the table held. *)
Theorem load_data_rerun (w : World) :
  store (snd (load_data raises (snd (load_data raises w))))
  = store (snd (load_data raises w)).
Proof.
  destruct (load_data_cases raises w) as [[e He]|(m & c & Hm & Hc & Hl)].
  - by rewrite He; simpl; rewrite He.
  - rewrite Hl. simpl.
    set (w1 := mkWorld _ _ _).
    assert (read_csv_file "transformed_medal_counts.csv" w1 = (Ok m, w1)) as Hm1.
    { rewrite read_csv_file_frame in *. simpl. by injection Hm as ->. }
    assert (read_csv_file "transformed_country_counts.csv" w1 = (Ok c, w1)) as Hc1.
    { rewrite read_csv_file_frame in *. simpl. by injection Hc as ->. }
    rewrite (load_data_unfold raises w1 m c Hm1 Hc1). simpl.
    apply loaded_store_idempotent.
Qed.
End LoaderFrame.

Section ChainRuns.
Variable raises : StoreCall → bool.

(** One run of the chain, whole: it stops at the Extractor with the world
    as it was, or at the Transformer with only the extracted file written,
    or at the Loader. *)
Lemma etl_pipeline_cases w :
  ((∀ objs, files w !! "athlete_events_2006_2016.jsonl" ≠ Some (JsonLines objs)) ∧
   ∃ e, etl_pipeline raises w = (Raise e, w)) ∨
  (∃ objs e,
     files w !! "athlete_events_2006_2016.jsonl" = Some (JsonLines objs) ∧
     transform_files (Some (extracted objs)) = Raise e ∧
     etl_pipeline raises w =
       (Raise e, set_files (<["extracted_data.csv" := extracted objs]> (files w)) w)) ∨
  (∃ objs mc cc e w',
     files w !! "athlete_events_2006_2016.jsonl" = Some (JsonLines objs) ∧
     transform_files (Some (extracted objs)) = Ok (mc, cc) ∧
     etl_pipeline raises w = (Raise e, w') ∧
     files w' =
       <["transformed_country_counts.csv" := CsvText cc]>
         (<["transformed_medal_counts.csv" := CsvText mc]>
            (<["extracted_data.csv" := extracted objs]> (files w))) ∧
     store w' = store_after_load raises mc cc (store w) ∧
     open_connections w' = open_connections w).
Proof.
  unfold etl_pipeline, run_chain.
  destruct (files w !! "athlete_events_2006_2016.jsonl") as [[objs|f]|] eqn:Hin.
  - right. pose proof (extract_data_unfold w objs Hin) as He.
    set (we := set_files _ w) in He.
    rewrite (bind_run_ok _ _ _ _ _ (run_task_ok _ extract_task _ _ _ He eq_refl)).
    pose proof (transform_data_unfold we) as Ht.
    assert (files we !! "extracted_data.csv" = Some (extracted objs)) as Hex
      by apply lookup_insert_eq.
    rewrite Hex in Ht.
    destruct (transform_files (Some (extracted objs))) as [[mc cc]|e] eqn:Htf.
    + right. set (wt := set_files _ we) in Ht.
      rewrite (bind_run_ok _ _ _ _ _ (run_task_ok _ transform_task _ _ _ Ht eq_refl)).
      destruct (load_task_run raises wt mc cc) as (e & wl & Hl & Hfl & Hsl & Hcl).
      { unfold wt. simpl. by rewrite lookup_insert_ne, lookup_insert_eq. }
      { unfold wt. simpl. by rewrite lookup_insert_eq. }
      rewrite (bind_run_raise _ _ _ _ _ Hl).
      exists objs, mc, cc, e, wl. by repeat split.
    + left. exists objs, e. repeat split; try done.
      by rewrite (bind_run_raise _ _ _ _ _
                    (run_task_raise_same _ transform_task _ _ Ht)).
  - left. split; [done|].
    destruct (extract_data_missing w) as [e He]; [by rewrite Hin|].
    exists e.
    by rewrite (bind_run_raise _ _ _ _ _ (run_task_raise_same _ extract_task _ _ He)).
  - left. split; [done|].
    destruct (extract_data_missing w) as [e He]; [by rewrite Hin|].
    exists e.
    by rewrite (bind_run_raise _ _ _ _ _ (run_task_raise_same _ extract_task _ _ He)).
Qed.
End ChainRuns.

(** X12.  No run of the chain ends well: whatever the input, the store
    and the answers of the store, the run stops with an error. *)
Theorem etl_pipeline_never_succeeds (raises : StoreCall → bool) (w : World) :
  ∃ e, fst (etl_pipeline raises w) = Raise e.
Proof.
  destruct (etl_pipeline_cases raises w)
    as [[_ [e He]]|[(objs & e & _ & _ & He)|(objs & mc & cc & e & w' & _ & _ & He & _)]];
    exists e; by rewrite He.
Qed.





Lemma store_after_load_other raises mc cc (db : gmap string SqlTable) table :
  table ≠ "MedalCounts" → store_after_load raises mc cc db !! table = db !! table.
Proof.
  intros Hne. unfold store_after_load.
  destruct (read_csv mc); [|done]. destruct (read_csv cc); [|done].
  by apply loaded_store_other.
Qed.

(** X15.  A run of the chain writes only its three artifact files and
    only the table MedalCounts: every other file, the input file among
    them, and every other table are as they were. *)
Theorem etl_pipeline_frame (raises : StoreCall → bool) (w : World) :
  (∀ path, path ∉ artifact_paths →
     files (snd (etl_pipeline raises w)) !! path = files w !! path) ∧
  (∀ table, table ≠ "MedalCounts" →
     store (snd (etl_pipeline raises w)) !! table = store w !! table).
Proof.
  assert (∀ path, path ∉ artifact_paths →
            path ≠ "extracted_data.csv" ∧ path ≠ "transformed_medal_counts.csv" ∧
            path ≠ "transformed_country_counts.csv") as Hpaths.
  { intros path Hp. unfold artifact_paths in Hp.
    repeat split; intros ->; apply Hp; repeat constructor. }
  destruct (etl_pipeline_cases raises w)
    as [[_ [e He]]|[(objs & e & _ & _ & He)
                   |(objs & mc & cc & e & w' & _ & _ & He & Hf & Hs & _)]];
    rewrite He; simpl.
  - done.
  - split; [|done]. intros path Hp. destruct (Hpaths path Hp) as (H1 & _ & _).
    by rewrite lookup_insert_ne.
  - split.
    + intros path Hp. destruct (Hpaths path Hp) as (H1 & H2 & H3).
      rewrite Hf. by rewrite !lookup_insert_ne.
    + intros table Hne. rewrite Hs. by apply store_after_load_other.
Qed.

Lemma transform_files_extracted objs df :
  read_csv (to_csv (read_json objs)) = Ok df →
  has_columns four df →
  transform_files (Some (extracted objs)) =
  Ok (to_csv (keys_typed_as df ["year"; "season"; "noc"]
                (reset_index "Medal_Count" (size (groups3 df)))),
      to_csv (keys_typed_as df ["year"; "season"]
                (reset_index "Countries_with_Medals"
                   (nunique (mkSeriesGroupBy (groups2 df) 2))))).
Proof.
  intros Hr Hc. unfold transform_files, extracted, read_frame.
  rewrite Hr. simpl. by rewrite (transform_frames_unfold df Hc).
Qed.

Lemma read_csv_reset_index df keys name s :
  ∃ d, read_csv (to_csv (keys_typed_as df keys (reset_index name s))) = Ok d.
Proof.
  unfold read_csv, to_csv, keys_typed_as, reset_index. simpl.
  destruct (index_labels s ++ [name])%list eqn:H; [|by eexists].
  by destruct (index_labels s).
Qed.

Lemma index_of_lt name cols i : index_of name cols = Some i → (i < length cols)%nat.
Proof.
  revert i. induction cols as [|c cols IH]; intros i; [done|]. simpl.
  destruct (String.eqb c name).
  - intros [= <-]. lia.
  - destruct (index_of name cols) as [j|]; [|done].
    intros [= <-]. specialize (IH j eq_refl). lia.
Qed.

(** ** From the records of the input to the rows of MedalCounts *)

Lemma key_texts_sureb_sound df : key_texts_sureb df = true → key_texts_sure df.
Proof.
  unfold key_texts_sureb. intros H r name s Hr Hn Hf.
  rewrite forallb_forall in H. apply list_elem_of_In, H in Hr.
  rewrite forallb_forall in Hr. apply list_elem_of_In, Hr in Hn.
  by rewrite Hf in Hn.
Qed.

Section MedalCountsFile.
Variable df : DataFrame.
Hypothesis df_columns : has_columns four df.
Hypothesis df_kinds :
  ∀ j, (j < length (columns df))%nat →
       number_cells (column_cells df j) || text_cells (column_cells df j) = true.
Hypothesis df_keys : key_texts_sure df.

Lemma field_kind name :
  name ∈ four →
  ∃ i, (i < length (columns df))%nat ∧ ∀ r, field df name r = cell_at r i.
Proof.
  intros Hn. destruct (index_of_elem name (columns df) (df_columns name Hn)) as [i Hi].
  exists i. split; [by apply index_of_lt with name|].
  intros r. unfold field. by rewrite Hi.
Qed.

Lemma medal_counts_row row :
  row ∈ rows (reset_index "Medal_Count" (size (groups3 df))) →
  ∃ r0 cnt,
    r0 ∈ rows df ∧
    all_present [field df "year" r0; field df "season" r0; field df "noc" r0] = true ∧
    row = [field df "year" r0; field df "season" r0; field df "noc" r0; Int cnt].
Proof.
  intros Hrow.
  apply medal_counts_rows in Hrow as (y & s & n & Hp & (r0 & Hr0) & ->).
  apply elem_of_medal_records in Hr0 as (Hr0 & _ & Hk).
  unfold key3 in Hk. injection Hk as <- <- <-.
  exists r0. eexists. split; [done|]. split; [done|reflexivity].
Qed.

(** A key column of MedalCount is a part of the column of the input,
    without its missing cells: a column of numbers stays one, and a
    column of texts stays one because each of its texts is surely one. *)
Lemma key_column_kind j name :
  name ∈ ["year"; "season"; "noc"] →
  (∀ r0 cnt,
     cell_at [field df "year" r0; field df "season" r0; field df "noc" r0; Int cnt] j
     = field df name r0) →
  number_cells (column_cells (reset_index "Medal_Count" (size (groups3 df))) j)
  || text_cells (column_cells (reset_index "Medal_Count" (size (groups3 df))) j) = true.
Proof.
  intros Hn Hj.
  assert (name ∈ four) as Hn4.
  { unfold four. apply list_elem_of_In. apply list_elem_of_In in Hn.
    simpl in *. tauto. }
  destruct (field_kind name Hn4) as (i & Hi & Hf).
  set (mc := reset_index "Medal_Count" (size (groups3 df))).
  assert (∀ c, c ∈ column_cells mc j →
               ∃ r0, r0 ∈ rows df ∧ c = field df name r0 ∧ notna c = true) as Hsub.
  { intros c Hc. unfold column_cells in Hc.
    apply list_elem_of_fmap in Hc as (row & -> & Hrow).
    destruct (medal_counts_row row Hrow) as (r0 & cnt & Hr0 & Hp & ->).
    exists r0. split; [done|]. rewrite Hj. split; [done|].
    simpl in Hp. rewrite !andb_true_iff in Hp. destruct Hp as (Hy & Hs & Hc & _).
    repeat (apply elem_of_cons in Hn as [->|Hn]; [done|]).
    by apply elem_of_nil in Hn. }
  apply orb_true_iff.
  destruct (orb_prop _ _ (df_kinds i Hi)) as [Hk|Hk].
  - left. unfold number_cells in *. rewrite forallb_forall in *.
    intros c Hc. apply list_elem_of_In in Hc.
    destruct (Hsub c Hc) as (r0 & Hr0 & -> & _). rewrite Hf.
    apply Hk, list_elem_of_In. by apply cell_in_column.
  - unfold text_cells in Hk. apply andb_true_iff in Hk as [Hk _].
    rewrite forallb_forall in Hk.
    destruct (column_cells mc j) as [|c0 cells] eqn:Hcells; [by left|].
    right. unfold text_cells. apply andb_true_iff. split.
    + apply forallb_forall. intros c Hc. apply list_elem_of_In in Hc.
      destruct (Hsub c Hc) as (r0 & Hr0 & -> & _). rewrite Hf.
      apply Hk, list_elem_of_In. by apply cell_in_column.
    + destruct (Hsub c0) as (r0 & Hr0 & Hc0 & Hna); [by left|].
      assert (In c0 (column_cells df i)) as Hin.
      { rewrite Hc0, Hf. apply list_elem_of_In. by apply cell_in_column. }
      specialize (Hk c0 Hin). simpl.
      destruct c0 as [| |s]; try discriminate.
      by rewrite (df_keys r0 name s Hr0 Hn).
Qed.

(** The MedalCount table of the input is read back as written, whatever
    the types of its key columns. *)
Lemma medal_counts_read_back fl0 :
  ∃ fl,
    read_csv (to_csv (typedFrame ["year"; "season"; "noc"; "Medal_Count"]
                        (rows (reset_index "Medal_Count" (size (groups3 df)))) fl0))
    = Ok (typedFrame ["year"; "season"; "noc"; "Medal_Count"]
            (rows (reset_index "Medal_Count" (size (groups3 df)))) fl).
Proof.
  apply (read_csv_to_csv
           (typedFrame ["year"; "season"; "noc"; "Medal_Count"]
              (rows (reset_index "Medal_Count" (size (groups3 df)))) fl0)).
  - done.
  - intros H. apply list_elem_of_In in H. simpl in H. intuition discriminate.
  - intros row Hrow.
    by destruct (medal_counts_row row Hrow) as (r0 & cnt & _ & _ & ->).
  - intros j Hj. simpl in Hj.
    change (column_cells (typedFrame _ ?rws _) j)
      with (column_cells (reset_index "Medal_Count" (size (groups3 df))) j).
    destruct j as [|[|[|[|j]]]]; [| | | |lia].
    + apply (key_column_kind 0 "year"); [apply list_elem_of_In; simpl; tauto|done].
    + apply (key_column_kind 1 "season"); [apply list_elem_of_In; simpl; tauto|done].
    + apply (key_column_kind 2 "noc"); [apply list_elem_of_In; simpl; tauto|done].
    + apply orb_true_iff. left. unfold number_cells. apply forallb_forall.
      intros c Hc. unfold column_cells in Hc. apply in_map_iff in Hc as (row & <- & Hrow).
      apply list_elem_of_In in Hrow.
      by destruct (medal_counts_row row Hrow) as (r0 & cnt & _ & _ & ->).
Qed.
End MedalCountsFile.



(** The table that a run leaves for the input with a missing year: the
    year is stored as a REAL, and no primary key is declared. *)
Example float_year_stored :
  store (snd (etl_pipeline no_faults float_year_world)) !! "MedalCounts"
  = Some (mkTable
            [("year", "REAL"); ("season", "TEXT"); ("noc", "TEXT");
             ("Medal_Count", "INTEGER")]
            []
            [ [Int 2012; Txt "Summer"; Txt "USA"; Int 2] ]).
Proof. vm_compute. reflexivity. Qed.

